(** * Lindura backend: [create_sale], [create_product], [get_sales] and
      [top_products] of [src/app.py], embedded and verified.

    The Flask handlers talk to a remote relational store through the
    Supabase client.  The store is a collaborator of the program, so it is
    modelled here as an explicit value ([Store]) that every handler takes
    and returns.  A write of [create_sale] can fail in two ways: the
    response has no rows, which the handler tests for
    ([if not response.data]), or the store rejects the write and the
    client raises, which the [except] clause of the handler turns into a
    500; both leave the tables as they were ([Outcome]).  The reads and
    the deletes of [create_sale] are taken as served.  For the product
    and customer handlers a boolean tells whether the write is served.

    Numbers are exact integers ([Z]): quantities and stock are counts and
    money is counted in minor units, so the rounding of Python's binary
    floats is outside this model.  Row identities are integers handed out
    by per-table sequences, user identities are the identity service's
    strings.  [check_auth()] is the handlers' argument [user]: [None]
    when the bearer token is missing or rejected. *)

From Stdlib Require Import ZArith List Ascii String Bool Lia Arith.
From Stdlib Require Import Sorting.Sorted Sorting.Permutation.
From Stdlib Require Import Numbers.DecimalString.
Import ListNotations.

Local Open Scope string_scope.
Local Open Scope list_scope.
Local Open Scope Z_scope.

(** ** Rows and tables *)

Record Product := mkProduct {
  p_id : Z;
  p_user_id : string;
  p_name : string;
  p_price : Z;
  p_stock : Z;
  p_category : string;
  p_low_stock_alert : Z
}.

Record Customer := mkCustomer {
  c_id : Z;
  c_user_id : string;
  c_name : string;
  c_email : string;
  c_phone : string
}.

Record Sale := mkSale {
  s_id : Z;
  s_total : Z;
  s_customer_id : option Z;
  s_user_id : string
}.

Record SaleItem := mkSaleItem {
  si_id : Z;
  si_sale_id : Z;
  si_product_id : Z;
  si_quantity : Z;
  si_unit_price : Z
}.

Record Store := mkStore {
  products : list Product;
  customers : list Customer;
  sales : list Sale;
  sale_items : list SaleItem;
  product_seq : Z;
  sale_seq : Z;
  item_seq : Z
}.

(** ** The store calls the handlers issue

    One definition per query shape that occurs in [app.py].  Reads return
    the matching rows in table order (the handlers look at [data[0]]);
    writes return the rows of the response together with the new store.
    A write that is not served leaves the store as it was.  Reads and
    deletes are always carried out. *)

(** [table('products').select(..).eq('id', pid).eq('user_id', uid)] *)
Definition select_products_by_id_user (pid : Z) (uid : string) (st : Store)
  : list Product :=
  filter (fun p => (p_id p =? pid) && String.eqb (p_user_id p) uid)
         (products st).

(** What the store does with a write of the sale sequence: carry it out
    and answer with the rows, answer without rows, or reject it, in which
    case the client raises an exception with a message.  The last two
    leave the tables as they were. *)
Inductive Outcome :=
| Served
| NoRows
| Raises (msg : string).

(** What [execute()] gives the handler: the [data] of the response, or
    the exception it raises. *)
Inductive Reply (A : Type) :=
| Rows (data : list A)
| Raised (msg : string).

Arguments Rows {A} data.
Arguments Raised {A} msg.

(** [table('sales').insert(sale_data).execute()] *)
Definition insert_sale (o : Outcome) (total : Z) (customer : option Z)
    (uid : string) (st : Store) : Reply Sale * Store :=
  match o with
  | Served =>
    let row := mkSale (sale_seq st) total customer uid in
    (Rows [row],
     mkStore (products st) (customers st) (sales st ++ [row])
             (sale_items st) (product_seq st) (sale_seq st + 1) (item_seq st))
  | NoRows => (Rows [], st)
  | Raises msg => (Raised msg, st)
  end.

(** [table('sale_items').insert(sale_item_data).execute()] *)
Definition insert_sale_item (o : Outcome) (sale_id pid qty price : Z)
    (st : Store) : Reply SaleItem * Store :=
  match o with
  | Served =>
    let row := mkSaleItem (item_seq st) sale_id pid qty price in
    (Rows [row],
     mkStore (products st) (customers st) (sales st)
             (sale_items st ++ [row])
             (product_seq st) (sale_seq st) (item_seq st + 1))
  | NoRows => (Rows [], st)
  | Raises msg => (Raised msg, st)
  end.

Definition set_stock (new_stock : Z) (p : Product) : Product :=
  mkProduct (p_id p) (p_user_id p) (p_name p) (p_price p) new_stock
            (p_category p) (p_low_stock_alert p).

(** [table('products').update({'stock': new_stock}).eq('id', pid)
    .execute()]: the filter is the identity alone, and the response lists
    the rows that were changed. *)
Definition update_stock_by_id (o : Outcome) (pid new_stock : Z) (st : Store)
  : Reply Product * Store :=
  match o with
  | Served =>
    let upd := fun p => if p_id p =? pid then set_stock new_stock p else p in
    (Rows (map (set_stock new_stock)
               (filter (fun p => p_id p =? pid) (products st))),
     mkStore (map upd (products st)) (customers st) (sales st)
             (sale_items st) (product_seq st) (sale_seq st) (item_seq st))
  | NoRows => (Rows [], st)
  | Raises msg => (Raised msg, st)
  end.

(** [table('sales').delete().eq('id', sale_id)]; the handlers never look
    at the response of a delete. *)
Definition delete_sales_by_id (sale_id : Z) (st : Store) : Store :=
  mkStore (products st) (customers st)
          (filter (fun s => negb (s_id s =? sale_id)) (sales st))
          (sale_items st) (product_seq st) (sale_seq st) (item_seq st).

(** [table('sale_items').delete().eq('sale_id', sale_id)] *)
Definition delete_sale_items_by_sale_id (sale_id : Z) (st : Store) : Store :=
  mkStore (products st) (customers st) (sales st)
          (filter (fun it => negb (si_sale_id it =? sale_id)) (sale_items st))
          (product_seq st) (sale_seq st) (item_seq st).

(** [table('products').insert(product_data)] *)
Definition insert_product (ok : bool) (uid name : string) (price stock : Z)
    (category : string) (alert : Z) (st : Store) : list Product * Store :=
  if ok then
    let row := mkProduct (product_seq st) uid name price stock category
                         alert in
    ([row],
     mkStore (products st ++ [row]) (customers st) (sales st) (sale_items st)
             (product_seq st + 1) (sale_seq st) (item_seq st))
  else ([], st).

(** A row of the fetch of [get_sales]: the sale with its embedded
    resources.  PostgREST embeds along the foreign keys: the items whose
    [sale_id] is the sale, each with the product its [product_id] names,
    and the customer the sale's [customer_id] names. *)
Record SaleView := mkSaleView {
  v_sale : Sale;
  v_sale_items : list (SaleItem * option Product);
  v_customers : option Customer
}.

(** The fetch of lines 367-371: [table('sales')] with every column, the
    embedded [sale_items] (and inside them [products]) and the embedded
    [customers], then [.eq('user_id', uid).order('sale_date', desc=True)].
    The one filter is on the owner of the sale.  Rows are kept in the
    order they were inserted, so the newest sale is the last one. *)
Definition select_sales_embedded (uid : string) (st : Store)
  : list SaleView :=
  map (fun s =>
         mkSaleView s
           (map (fun it =>
                   (it, find (fun p => p_id p =? si_product_id it)
                             (products st)))
                (filter (fun it => si_sale_id it =? s_id s) (sale_items st)))
           (match s_customer_id s with
            | Some cid => find (fun c => c_id c =? cid) (customers st)
            | None => None
            end))
      (rev (filter (fun s => String.eqb (s_user_id s) uid) (sales st))).

(** ** Requests and responses *)

(** One element of [data['items']].  For [product_id] and [quantity],
    [None] is a key that is absent or null ([item.get] gives [None] for
    both); for [unit_price], [None] is an absent key. *)
Record ItemReq := mkItemReq {
  product_id : option Z;
  quantity : option Z;
  unit_price : option Z
}.

(** The body of [POST /api/sales].  [client_total] stands for a [total]
    key a client may send; the handler never reads it. *)
Record SaleReq := mkSaleReq {
  items : option (list ItemReq);
  customer_id : option Z;
  client_total : option Z
}.

(** A JSON scalar as a request field may carry it. *)
Inductive jval :=
| JNull
| JNum (z : Z)
| JStr (s : string).

(** The body of [POST /api/products].  A field is [None] when its key is
    absent.  [name] and [category] are taken to be strings. *)
Record ProductReq := mkProductReq {
  pr_name : option string;
  pr_price : option jval;
  pr_stock : option jval;
  pr_category : option string;
  pr_low_stock_alert : option jval
}.

(** A row of the fetch of line 578: [quantity], [unit_price] and the
    embedded [products(name)], which is null when the product is gone. *)
Record ReportRow := mkReportRow {
  r_quantity : Z;
  r_unit_price : Z;
  r_products : option string
}.

(** A value of the [product_sales] dict. *)
Record Totals := mkTotals {
  t_quantity : Z;
  t_revenue : Z
}.

(** An element of [top_products_list]. *)
Record TopEntry := mkTopEntry {
  e_name : string;
  e_quantity : Z;
  e_revenue : Z
}.

(** What [jsonify] is given. *)
Inductive Body :=
| BError (msg : string)
| BSale (s : Sale)
| BProduct (p : Product)
| BSales (l : list SaleView)
| BTop (l : list TopEntry).

Definition Response : Type := (Z * Body)%type.

(** Python's [str] on an integer, as the f-strings of the handlers use it. *)
Definition str (z : Z) : string := NilZero.string_of_int (Z.to_int z).

(** What the store does with each write of one invocation: the insert of
    the sale header, and the item insert and the stock update of the item
    at a given position of the request (counted from 0). *)
Record Faults := mkFaults {
  sale_insert : Outcome;
  item_insert : nat -> Outcome;
  stock_update : nat -> Outcome
}.

Definition no_faults : Faults :=
  mkFaults Served (fun _ => Served) (fun _ => Served).

(** The answer of the [except] clause of lines 354-357 to an exception
    with message [msg]. *)
Definition internal_error (msg : string) : Response :=
  (500, BError ("Error interno del servidor: " ++ msg)%string).

(** ** [create_sale] *)

(** An entry of [items_to_process]: the product row read during
    validation, the two keys of [item_data] that are read again later, and
    the effective unit price. *)
Record ItemInfo := mkItemInfo {
  product : Product;
  item_product_id : Z;
  item_quantity : Z;
  info_unit_price : Z
}.

(** The first loop of [create_sale] (lines 267-293): validation, stock
    check and accumulation of [total] and [items_to_process].  [inl] is an
    early [return]. *)
Fixpoint check_items (uid : string) (st : Store) (its : list ItemReq)
    (total : Z) (items_to_process : list ItemInfo)
  : Response + (Z * list ItemInfo) :=
  match its with
  | [] => inr (total, items_to_process)
  | item :: rest =>
    match product_id item, quantity item with
    | Some pid, Some qty =>
      if (pid =? 0) || (qty =? 0) then
        inl (400, BError "Cada item debe tener product_id y quantity")
      else
        match select_products_by_id_user pid uid st with
        | [] => inl (404, BError ("Producto " ++ str pid ++ " no encontrado")%string)
        | product :: _ =>
          if p_stock product <? qty then
            inl (400, BError ("Stock insuficiente para " ++ p_name product
                                ++ ". Stock disponible: "
                                ++ str (p_stock product))%string)
          else
            let item_price :=
              match unit_price item with
              | Some u => u
              | None => p_price product
              end in
            check_items uid st rest (total + item_price * qty)
              (items_to_process ++ [mkItemInfo product pid qty item_price])
        end
    | _, _ => inl (400, BError "Cada item debe tener product_id y quantity")
    end
  end.

(** The second loop (lines 313-349): per item, insert the sale item, then
    write the new stock computed from the row read during validation.
    [Some r] is the answer of the handler when the loop is left early: an
    early [return r], or, when a call raises, the answer of the [except]
    clause, which is reached with nothing deleted.  [i] is the position of
    the head of [infos] in the request. *)
Fixpoint process_items (f : Faults) (sale_id : Z) (i : nat)
    (infos : list ItemInfo) (st : Store) : option Response * Store :=
  match infos with
  | [] => (None, st)
  | info :: rest =>
    let (item_response, st1) :=
      insert_sale_item (item_insert f i) sale_id (item_product_id info)
                       (item_quantity info) (info_unit_price info) st in
    match item_response with
    | Raised msg => (Some (internal_error msg), st1)
    | Rows [] =>
      let st2 := delete_sales_by_id sale_id st1 in
      (Some (400, BError ("Error creando item para "
                            ++ p_name (product info))%string), st2)
    | Rows (_ :: _) =>
      let new_stock := p_stock (product info) - item_quantity info in
      let (update_response, st2) :=
        update_stock_by_id (stock_update f i) (p_id (product info))
                           new_stock st1 in
      match update_response with
      | Raised msg => (Some (internal_error msg), st2)
      | Rows [] =>
        let st3 := delete_sales_by_id sale_id st2 in
        let st4 := delete_sale_items_by_sale_id sale_id st3 in
        (Some (400, BError ("Error actualizando stock para "
                              ++ p_name (product info))%string), st4)
      | Rows (_ :: _) => process_items f sale_id (S i) rest st2
      end
    end
  end.

(** [data.get('customer_id') or None] *)
Definition or_none (o : option Z) : option Z :=
  match o with
  | Some z => if z =? 0 then None else Some z
  | None => None
  end.

(** [POST /api/sales].  [user] is the result of [check_auth()].  The
    reads of the first loop are taken as served; a write that raises is
    answered by the [except] clause. *)
Definition create_sale (f : Faults) (user : option string) (data : SaleReq)
    (st : Store) : Response * Store :=
  match user with
  | None => ((401, BError "No autorizado"), st)
  | Some uid =>
    match items data with
    | None | Some [] =>
      ((400, BError "La venta debe tener al menos un item"), st)
    | Some its =>
      match check_items uid st its 0 [] with
      | inl r => (r, st)
      | inr (total, items_to_process) =>
        let (sale_response, st1) :=
          insert_sale (sale_insert f) total (or_none (customer_id data))
                      uid st in
        match sale_response with
        | Raised msg => (internal_error msg, st1)
        | Rows [] =>
          ((400, BError "Error creando la venta en la base de datos"), st1)
        | Rows (sale :: _) =>
          match process_items f (s_id sale) 0 items_to_process st1 with
          | (Some r, st2) => (r, st2)
          | (None, st2) => ((200, BSale sale), st2)
          end
        end
      end
    end
  end.

(** ** [create_product] *)

(** Python's truth value of [data.get(key)]. *)
Definition truthy (v : option jval) : bool :=
  match v with
  | None | Some JNull => false
  | Some (JNum z) => negb (z =? 0)
  | Some (JStr s) => negb (String.eqb s "")
  end.

Definition truthy_str (v : option string) : bool :=
  match v with
  | None => false
  | Some s => negb (String.eqb s "")
  end.

(** [float(s)] and [int(s)] on a string.  The strings covered are the
    decimal integers with an optional sign, which is what a number of this
    model can be written as; on any other string the model takes the
    [ValueError] branch ([None]).  Python reads more strings than these:
    blanks around the digits, underscores between them and, for [float],
    a decimal point or an exponent.  Such strings stand for the same
    numbers written otherwise, or for numbers that are not integers, and
    are left out of the requests this development speaks of. *)
Definition number_of_string (s : string) : option Z :=
  match s with
  | String "+"%char s' =>
    match s' with
    | String "-"%char _ | String "+"%char _ => None
    | _ => option_map Z.of_int (NilZero.int_of_string s')
    end
  | _ => option_map Z.of_int (NilZero.int_of_string s)
  end.

(** [float(v)] / [int(v)]; [None] is the exception either raises.  A
    JSON number is an integer here and is kept as it is: [int] does so
    for every integer, [float] for the integers a binary float holds
    exactly (all up to 2^53 in magnitude), beyond which it rounds. *)
Definition to_number (v : jval) : option Z :=
  match v with
  | JNull => None
  | JNum z => Some z
  | JStr s => number_of_string s
  end.

(** [int(data.get(key, default))] *)
Definition int_or (v : option jval) (default : Z) : option Z :=
  match v with
  | None => Some default
  | Some x => to_number x
  end.

(** [POST /api/products].  [ok] tells whether the store serves the
    insert; an exception inside the [try] gives the 500 answer. *)
Definition create_product (ok : bool) (user : option string)
    (data : ProductReq) (st : Store) : Response * Store :=
  match user with
  | None => ((401, BError "No autorizado"), st)
  | Some uid =>
    if negb (truthy_str (pr_name data)) || negb (truthy (pr_price data)) then
      ((400, BError "Nombre y precio son requeridos"), st)
    else
      match pr_name data, pr_price data with
      | Some name, Some price_v =>
        match to_number price_v,
              int_or (pr_stock data) 0,
              int_or (pr_low_stock_alert data) 5 with
        | Some price, Some stock, Some alert =>
          let category :=
            match pr_category data with
            | Some c => c
            | None => ""
            end in
          let (response, st1) :=
            insert_product ok uid name price stock category alert st in
          match response with
          | row :: _ => ((200, BProduct row), st1)
          | [] => ((400, BError "Error creando producto"), st1)
          end
        | _, _, _ => ((500, BError "Error creando producto"), st)
        end
      | _, _ => ((500, BError "Error creando producto"), st)
      end
  end.

(** ** [get_sales] and [top_products] *)

(** [GET /api/sales] *)
Definition get_sales (user : option string) (st : Store) : Response :=
  match user with
  | None => (401, BError "No autorizado")
  | Some uid => (200, BSales (select_sales_embedded uid st))
  end.

Definition product_name (item : ReportRow) : string :=
  match r_products item with
  | Some name => name
  | None => "Producto desconocido"
  end.

(** [product_sales] is a dict; iteration follows insertion order, so it
    is kept as a list of bindings in insertion order.  [dict_add] is the
    body of the loop for one row: create the entry with zeros when the
    name is new, then add to both fields. *)
Fixpoint dict_add (name : string) (q rev : Z) (d : list (string * Totals))
  : list (string * Totals) :=
  match d with
  | [] => [(name, mkTotals (0 + q) (0 + rev))]
  | (n, t) :: rest =>
    if String.eqb n name
    then (n, mkTotals (t_quantity t + q) (t_revenue t + rev)) :: rest
    else (n, t) :: dict_add name q rev rest
  end.

Definition product_sales (response_data : list ReportRow)
  : list (string * Totals) :=
  fold_left
    (fun d item =>
       dict_add (product_name item) (r_quantity item)
                (r_quantity item * r_unit_price item) d)
    response_data [].

(** [list.sort(key=quantity, reverse=True)]: a stable sort, larger
    quantities first, equal quantities in their original order. *)
Fixpoint insert_desc (x : TopEntry) (l : list TopEntry) : list TopEntry :=
  match l with
  | [] => [x]
  | y :: r =>
    if e_quantity x <? e_quantity y then y :: insert_desc x r
    else x :: y :: r
  end.

Definition sort_desc (l : list TopEntry) : list TopEntry :=
  fold_right insert_desc [] l.

Definition top_products_list (response_data : list ReportRow)
  : list TopEntry :=
  sort_desc
    (map (fun kv => mkTopEntry (fst kv) (t_quantity (snd kv))
                               (t_revenue (snd kv)))
         (product_sales response_data)).

(** [GET /api/reports/top-products], given the rows of the fetch of line
    578 ([response.data]). *)
Definition top_products (user : option string)
    (response_data : list ReportRow) : Response :=
  match user with
  | None => (401, BError "No autorizado")
  | Some _ => (200, BTop (firstn 10 (top_products_list response_data)))
  end.

(** ** What a request asks for, read off the request and the store *)

(** The row [product_response.data[0]] for a product reference. *)
Definition lookup_product (pid : Z) (uid : string) (st : Store)
  : option Product :=
  hd_error (select_products_by_id_user pid uid st).

Definition stock_of (pid : Z) (uid : string) (st : Store) : option Z :=
  option_map p_stock (lookup_product pid uid st).

Definition find_product (pid : Z) (uid : string) (ps : list Product)
  : option Product :=
  hd_error (filter (fun p => (p_id p =? pid) && String.eqb (p_user_id p) uid)
                   ps).

(** The product an item refers to, as the first loop reads it. *)
Definition referenced_product (uid : string) (st : Store) (item : ItemReq)
  : option Product :=
  match product_id item with
  | Some pid => lookup_product pid uid st
  | None => None
  end.

(** The caller's [unit_price] when the item carries one, else the catalog
    price of the referenced product. *)
Definition effective_unit_price (uid : string) (st : Store) (item : ItemReq)
  : Z :=
  match unit_price item with
  | Some u => u
  | None =>
    match product_id item with
    | Some pid =>
      match lookup_product pid uid st with
      | Some p => p_price p
      | None => 0
      end
    | None => 0
    end
  end.

Definition requested_quantity (item : ItemReq) : Z :=
  match quantity item with
  | Some q => q
  | None => 0
  end.

Definition line_amount (uid : string) (st : Store) (item : ItemReq) : Z :=
  effective_unit_price uid st item * requested_quantity item.

Fixpoint sum_Z (l : list Z) : Z :=
  match l with
  | [] => 0
  | x :: r => x + sum_Z r
  end.

Definition expected_total (uid : string) (st : Store) (its : list ItemReq)
  : Z :=
  sum_Z (map (line_amount uid st) its).

Definition request_items (data : SaleReq) : list ItemReq :=
  match items data with
  | Some its => its
  | None => []
  end.

(** The entry of [items_to_process] an item gives rise to when it passes
    the first loop. *)
Definition info_of (uid : string) (st : Store) (item : ItemReq)
  : option ItemInfo :=
  match product_id item, quantity item with
  | Some pid, Some qty =>
    match lookup_product pid uid st with
    | Some p => Some (mkItemInfo p pid qty (effective_unit_price uid st item))
    | None => None
    end
  | _, _ => None
  end.

(** An item that passes every check of the first loop. *)
Definition item_passes (uid : string) (st : Store) (item : ItemReq)
    (info : ItemInfo) : Prop :=
  info_of uid st item = Some info /\
  item_product_id info <> 0 /\
  item_quantity info <> 0 /\
  item_quantity info <= p_stock (product info).

(** An item fails the test of line 268 when [product_id] or [quantity] is
    absent, null or zero. *)
Definition incomplete (item : ItemReq) : bool :=
  match product_id item, quantity item with
  | Some pid, Some qty => (pid =? 0) || (qty =? 0)
  | _, _ => true
  end.

(** An item is short of stock for [p] when [p] is the product it refers to
    and holds less than the quantity asked for. *)
Definition short_of_stock (uid : string) (st : Store) (item : ItemReq)
    (p : Product) (qty : Z) : Prop :=
  referenced_product uid st item = Some p /\
  quantity item = Some qty /\
  p_stock p < qty.

Definition insufficient_stock (p : Product) : Response :=
  (400, BError ("Stock insuficiente para " ++ p_name p
                  ++ ". Stock disponible: " ++ str (p_stock p))%string).

(** The header row [create_sale] asks the store to insert. *)
Definition header_of (uid : string) (data : SaleReq) (st : Store) : Sale :=
  mkSale (sale_seq st) (expected_total uid st (request_items data))
         (or_none (customer_id data)) uid.

Definition with_header (row : Sale) (st : Store) : Store :=
  mkStore (products st) (customers st) (sales st ++ [row]) (sale_items st)
          (product_seq st) (sale_seq st + 1) (item_seq st).

(** The stock writes of the second loop, on the products table alone. *)
Definition write_stock (ps : list Product) (info : ItemInfo) : list Product :=
  map (fun p => if p_id p =? p_id (product info)
                then set_stock (p_stock (product info) - item_quantity info) p
                else p) ps.

Definition stock_writes (infos : list ItemInfo) (ps : list Product)
  : list Product :=
  fold_left write_stock infos ps.

(** The store after one full iteration of the second loop: the item row
    appended and the stock written. *)
Definition after_item (sale_id : Z) (st : Store) (info : ItemInfo) : Store :=
  mkStore (write_stock (products st) info) (customers st) (sales st)
          (sale_items st ++
             [mkSaleItem (item_seq st) sale_id (item_product_id info)
                         (item_quantity info) (info_unit_price info)])
          (product_seq st) (sale_seq st) (item_seq st + 1).

Definition after_items (sale_id : Z) (infos : list ItemInfo) (st : Store)
  : Store :=
  fold_left (after_item sale_id) infos st.

(** The stock rule for one item of a request: what is read back for its
    product after the call is what was read before, minus the item's
    quantity. *)
Definition stock_rule (uid : string) (st st' : Store) (item : ItemReq)
  : Prop :=
  exists pid qty s,
    product_id item = Some pid /\
    quantity item = Some qty /\
    stock_of pid uid st = Some s /\
    stock_of pid uid st' = Some (s - qty).

(** ** What the fetched rows say about a product name *)

(** What the rows say about one name. *)
Definition rows_of (name : string) (rows : list ReportRow) : list ReportRow :=
  filter (fun r => String.eqb (product_name r) name) rows.

Definition quantity_of (name : string) (rows : list ReportRow) : Z :=
  sum_Z (map r_quantity (rows_of name rows)).

Definition revenue_of (name : string) (rows : list ReportRow) : Z :=
  sum_Z (map (fun r => r_quantity r * r_unit_price r) (rows_of name rows)).

Definition more_sold (a b : TopEntry) : Prop := e_quantity b <= e_quantity a.

Definition dict_get (name : string) (d : list (string * Totals))
  : option Totals :=
  option_map snd (find (fun kv => String.eqb (fst kv) name) d).

(** ** A shop to run the handlers on *)

Definition shop : Store :=
  mkStore
    [mkProduct 1 "alice" "Jabon" 10 10 "" 5;
     mkProduct 2 "alice" "Crema" 5 3 "" 5;
     mkProduct 3 "bob" "Vela" 7 4 "" 5]
    [mkCustomer 1 "alice" "Ana" "" "";
     mkCustomer 2 "bob" "Berta" "berta@example.org" "555"]
    [] [] 4 1 1.

Definition line (pid qty : Z) : ItemReq := mkItemReq (Some pid) (Some qty) None.

Definition second_line : ItemReq := mkItemReq (Some 2) (Some 1) (Some 4).

(** Two lines, the second with its own unit price, and a client total
    that does not match. *)
Definition two_line_sale : SaleReq :=
  mkSaleReq (Some [line 1 2; second_line]) None (Some 999).

Definition two_line_infos : list ItemInfo :=
  [mkItemInfo (mkProduct 1 "alice" "Jabon" 10 10 "" 5) 1 2 10;
   mkItemInfo (mkProduct 2 "alice" "Crema" 5 3 "" 5) 2 1 4].

Definition repeated_product_sale : SaleReq :=
  mkSaleReq (Some [line 1 3; line 1 4]) None None.

(** Sixteen units of product 1, which has 10 in stock, in two items. *)
Definition oversold_sale : SaleReq :=
  mkSaleReq (Some [line 1 8; line 1 8]) None None.

Definition unknown_then_short_sale : SaleReq :=
  mkSaleReq (Some [line 99 1; line 1 100]) None None.

Definition short_sale : SaleReq :=
  mkSaleReq (Some [line 2 1; line 1 100]) None None.

Definition negative_quantity_sale : SaleReq :=
  mkSaleReq (Some [line 1 (-1)]) None None.

Definition missing_quantity_sale : SaleReq :=
  mkSaleReq (Some [line 2 1; mkItemReq (Some 1) None None]) None None.

(** A sale by alice that names customer 2, who belongs to bob. *)
Definition foreign_customer_sale : SaleReq :=
  mkSaleReq (Some [line 1 1]) (Some 2) None.

Definition second_insert_refused : Faults :=
  mkFaults Served (fun i => if Nat.eqb i 1 then NoRows else Served)
           (fun _ => Served).

Definition second_update_refused : Faults :=
  mkFaults Served (fun _ => Served)
           (fun i => if Nat.eqb i 1 then NoRows else Served).

(** The same two faults with a store that rejects the write, so that the
    client raises. *)
Definition second_insert_raises : Faults :=
  mkFaults Served
           (fun i => if Nat.eqb i 1 then Raises "insert rejected" else Served)
           (fun _ => Served).

Definition second_update_raises : Faults :=
  mkFaults Served (fun _ => Served)
           (fun i => if Nat.eqb i 1 then Raises "update rejected" else Served).

Definition header_refused : Faults :=
  mkFaults NoRows (fun _ => Served) (fun _ => Served).

Definition header_raises : Faults :=
  mkFaults (Raises "insert rejected") (fun _ => Served) (fun _ => Served).

(** The rows of the example of the specification. *)
Definition example_rows : list ReportRow :=
  [mkReportRow 2 10 (Some "A");
   mkReportRow 1 5 (Some "B");
   mkReportRow 1 10 (Some "A")].

Definition free_product : ProductReq :=
  mkProductReq (Some "Muestra") (Some (JStr "0")) None None None.

Definition priced_product : ProductReq :=
  mkProductReq (Some "Muestra") (Some (JNum 12)) None None None.

Definition zero_price_product : ProductReq :=
  mkProductReq (Some "Muestra") (Some (JNum 0)) None None None.

(** ** [check_auth] *)

(** The [user] object of the identity service, reduced to the two
    attributes the program reads. *)
Record User := mkUser {
  u_id : string;
  u_email : string
}.

(** What [supabase.auth.get_user(token)] can do: raise, answer without a
    user, or answer with one. *)
Inductive AuthReply :=
| AuthRaised
| AuthNoUser
| AuthUser (u : User).

(** [s.startswith(pre)] *)
Fixpoint startswith (pre s : string) : bool :=
  match pre, s with
  | EmptyString, _ => true
  | String a pre', String b s' => Ascii.eqb a b && startswith pre' s'
  | String _ _, EmptyString => false
  end.

(** [s.replace(old, '')] for a non-empty [old]: the occurrences of [old]
    met from left to right, without overlap, are dropped.  [skip] counts
    the characters of the occurrence just met that are still to drop. *)
Fixpoint remove_all (old : string) (skip : nat) (s : string) : string :=
  match s with
  | EmptyString => EmptyString
  | String c s' =>
    match skip with
    | S k => remove_all old k s'
    | O =>
      if startswith old s
      then remove_all old (String.length old - 1) s'
      else String c (remove_all old 0 s')
    end
  end.

(** [check_auth()], given the identity service and the [Authorization]
    header of the request ([None] when the request has none). *)
Definition check_auth (get_user : string -> AuthReply)
    (auth_header : option string) : option User :=
  match auth_header with
  | None => None
  | Some h =>
    if startswith "Bearer " h then
      let token := remove_all "Bearer " 0 h in
      match get_user token with
      | AuthUser u => Some u
      | AuthRaised | AuthNoUser => None
      end
    else None
  end.

(** The [user.id] the handlers go on with. *)
Definition authenticated (get_user : string -> AuthReply)
    (auth_header : option string) : option string :=
  option_map u_id (check_auth get_user auth_header).

(** ** The product and customer handlers *)

(** [table('products').select('*').eq('user_id', uid)
    .order('created_at', desc=True)]; rows are kept in the order they were
    inserted. *)
Definition select_products_by_user (uid : string) (st : Store)
  : list Product :=
  rev (filter (fun p => String.eqb (p_user_id p) uid) (products st)).

(** The [update_data] dict of [update_product], after the coercions: a
    field is [None] when its key is not in the request. *)
Record ProductPatch := mkProductPatch {
  new_name : option string;
  new_price : option Z;
  new_stock : option Z;
  new_category : option string;
  new_low_stock_alert : option Z
}.

Definition or_old {A} (o : option A) (old : A) : A :=
  match o with
  | Some v => v
  | None => old
  end.

Definition apply_patch (u : ProductPatch) (p : Product) : Product :=
  mkProduct (p_id p) (p_user_id p)
            (or_old (new_name u) (p_name p))
            (or_old (new_price u) (p_price p))
            (or_old (new_stock u) (p_stock p))
            (or_old (new_category u) (p_category p))
            (or_old (new_low_stock_alert u) (p_low_stock_alert p)).

Definition is_product (pid : Z) (uid : string) (p : Product) : bool :=
  (p_id p =? pid) && String.eqb (p_user_id p) uid.

(** [table('products').update(update_data).eq('id', pid)
    .eq('user_id', uid)] *)
Definition update_products_by_id_user (ok : bool) (pid : Z) (uid : string)
    (u : ProductPatch) (st : Store) : list Product * Store :=
  if ok then
    (map (apply_patch u) (filter (is_product pid uid) (products st)),
     mkStore (map (fun p => if is_product pid uid p then apply_patch u p
                            else p) (products st))
             (customers st) (sales st) (sale_items st)
             (product_seq st) (sale_seq st) (item_seq st))
  else ([], st).

(** [table('products').delete().eq('id', pid).eq('user_id', uid)] *)
Definition delete_products_by_id_user (pid : Z) (uid : string) (st : Store)
  : Store :=
  mkStore (filter (fun p => negb (is_product pid uid p)) (products st))
          (customers st) (sales st) (sale_items st)
          (product_seq st) (sale_seq st) (item_seq st).

Definition is_customer (cid : Z) (uid : string) (c : Customer) : bool :=
  (c_id c =? cid) && String.eqb (c_user_id c) uid.

(** [table('customers').select('*').eq('id', cid).eq('user_id', uid)] *)
Definition select_customers_by_id_user (cid : Z) (uid : string) (st : Store)
  : list Customer :=
  filter (is_customer cid uid) (customers st).

(** [table('customers').select('*').eq('user_id', uid)
    .order('created_at', desc=True)] *)
Definition select_customers_by_user (uid : string) (st : Store)
  : list Customer :=
  rev (filter (fun c => String.eqb (c_user_id c) uid) (customers st)).

(** [table('customers').insert(customer_data)].  The store hands out the
    identity of the new row; [new_id] is the one it picks. *)
Definition insert_customer (ok : bool) (new_id : Z) (uid name email phone
    : string) (st : Store) : list Customer * Store :=
  if ok then
    let row := mkCustomer new_id uid name email phone in
    ([row],
     mkStore (products st) (customers st ++ [row]) (sales st) (sale_items st)
             (product_seq st) (sale_seq st) (item_seq st))
  else ([], st).

(** The [update_data] dict of [update_customer]. *)
Record CustomerPatch := mkCustomerPatch {
  new_c_name : option string;
  new_c_email : option string;
  new_c_phone : option string
}.

Definition apply_customer_patch (u : CustomerPatch) (c : Customer)
  : Customer :=
  mkCustomer (c_id c) (c_user_id c)
             (or_old (new_c_name u) (c_name c))
             (or_old (new_c_email u) (c_email c))
             (or_old (new_c_phone u) (c_phone c)).

(** [table('customers').update(update_data).eq('id', cid)
    .eq('user_id', uid)] *)
Definition update_customers_by_id_user (ok : bool) (cid : Z) (uid : string)
    (u : CustomerPatch) (st : Store) : list Customer * Store :=
  if ok then
    (map (apply_customer_patch u) (filter (is_customer cid uid) (customers st)),
     mkStore (products st)
             (map (fun c => if is_customer cid uid c
                            then apply_customer_patch u c else c)
                  (customers st))
             (sales st) (sale_items st)
             (product_seq st) (sale_seq st) (item_seq st))
  else ([], st).

(** [table('customers').delete().eq('id', cid).eq('user_id', uid)] *)
Definition delete_customers_by_id_user (cid : Z) (uid : string) (st : Store)
  : Store :=
  mkStore (products st)
          (filter (fun c => negb (is_customer cid uid c)) (customers st))
          (sales st) (sale_items st)
          (product_seq st) (sale_seq st) (item_seq st).

(** What [jsonify] is given by the product, customer and backup
    handlers.  A product of [get_products] goes with its [low_stock]
    flag. *)
Inductive CrudBody :=
| CError (msg : string)
| CMessage (msg : string)
| COneProduct (p : Product)
| CProducts (l : list (Product * bool))
| COneCustomer (c : Customer)
| CCustomers (l : list Customer)
| CBackup (ps : list Product) (cs : list Customer) (ss : list Sale).

Definition CrudResponse : Type := (Z * CrudBody)%type.

(** [GET /api/products] *)
Definition get_products (user : option string) (st : Store) : CrudResponse :=
  match user with
  | None => (401, CError "No autorizado")
  | Some uid =>
    (200, CProducts
            (map (fun product =>
                    (product, p_stock product <=? p_low_stock_alert product))
                 (select_products_by_user uid st)))
  end.

(** The coercions of lines 189-199; [None] is the exception one of them
    raises. *)
Definition update_data_of (data : ProductReq) : option ProductPatch :=
  match option_map to_number (pr_price data),
        option_map to_number (pr_stock data),
        option_map to_number (pr_low_stock_alert data) with
  | Some None, _, _ | _, Some None, _ | _, _, Some None => None
  | price, stock, alert =>
    Some (mkProductPatch (pr_name data)
            (match price with Some v => v | None => None end)
            (match stock with Some v => v | None => None end)
            (pr_category data)
            (match alert with Some v => v | None => None end))
  end.

(** [PUT /api/products/<product_id>] *)
Definition update_product (ok : bool) (user : option string)
    (product_id : Z) (data : ProductReq) (st : Store)
  : CrudResponse * Store :=
  match user with
  | None => ((401, CError "No autorizado"), st)
  | Some uid =>
    match select_products_by_id_user product_id uid st with
    | [] => ((404, CError "Producto no encontrado"), st)
    | _ :: _ =>
      match update_data_of data with
      | None => ((500, CError "Error actualizando producto"), st)
      | Some update_data =>
        let (response, st1) :=
          update_products_by_id_user ok product_id uid update_data st in
        match response with
        | row :: _ => ((200, COneProduct row), st1)
        | [] => ((400, CError "Error actualizando producto"), st1)
        end
      end
    end
  end.

(** [DELETE /api/products/<product_id>] *)
Definition delete_product (user : option string) (product_id : Z)
    (st : Store) : CrudResponse * Store :=
  match user with
  | None => ((401, CError "No autorizado"), st)
  | Some uid =>
    match select_products_by_id_user product_id uid st with
    | [] => ((404, CError "Producto no encontrado"), st)
    | _ :: _ =>
      ((200, CMessage "Producto eliminado correctamente"),
       delete_products_by_id_user product_id uid st)
    end
  end.

(** The body of [POST /api/customers] and [PUT /api/customers/<id>]: a
    field is [None] when its key is absent; the values are taken to be
    strings. *)
Record CustomerReq := mkCustomerReq {
  cr_name : option string;
  cr_email : option string;
  cr_phone : option string
}.

(** [GET /api/customers] *)
Definition get_customers (user : option string) (st : Store) : CrudResponse :=
  match user with
  | None => (401, CError "No autorizado")
  | Some uid => (200, CCustomers (select_customers_by_user uid st))
  end.

(** [POST /api/customers] *)
Definition create_customer (ok : bool) (new_id : Z) (user : option string)
    (data : CustomerReq) (st : Store) : CrudResponse * Store :=
  match user with
  | None => ((401, CError "No autorizado"), st)
  | Some uid =>
    if negb (truthy_str (cr_name data)) then
      ((400, CError "El nombre es requerido"), st)
    else
      match cr_name data with
      | Some name =>
        let (response, st1) :=
          insert_customer ok new_id uid name
            (or_old (cr_email data) "") (or_old (cr_phone data) "") st in
        match response with
        | row :: _ => ((200, COneCustomer row), st1)
        | [] => ((400, CError "Error creando cliente"), st1)
        end
      | None => ((500, CError "Error creando cliente"), st)
      end
  end.

(** [PUT /api/customers/<customer_id>] *)
Definition update_customer (ok : bool) (user : option string)
    (customer_id : Z) (data : CustomerReq) (st : Store)
  : CrudResponse * Store :=
  match user with
  | None => ((401, CError "No autorizado"), st)
  | Some uid =>
    match select_customers_by_id_user customer_id uid st with
    | [] => ((404, CError "Cliente no encontrado"), st)
    | _ :: _ =>
      let update_data :=
        mkCustomerPatch (cr_name data) (cr_email data) (cr_phone data) in
      let (response, st1) :=
        update_customers_by_id_user ok customer_id uid update_data st in
      match response with
      | row :: _ => ((200, COneCustomer row), st1)
      | [] => ((400, CError "Error actualizando cliente"), st1)
      end
    end
  end.

(** [DELETE /api/customers/<customer_id>] *)
Definition delete_customer (user : option string) (customer_id : Z)
    (st : Store) : CrudResponse * Store :=
  match user with
  | None => ((401, CError "No autorizado"), st)
  | Some uid =>
    match select_customers_by_id_user customer_id uid st with
    | [] => ((404, CError "Cliente no encontrado"), st)
    | _ :: _ =>
      ((200, CMessage "Cliente eliminado correctamente"),
       delete_customers_by_id_user customer_id uid st)
    end
  end.

(** [GET /api/backup]: the three tables of line 464, each filtered on the
    owner, in table order. *)
Definition backup_data (user : option string) (st : Store) : CrudResponse :=
  match user with
  | None => (401, CError "No autorizado")
  | Some uid =>
    (200, CBackup
            (filter (fun p => String.eqb (p_user_id p) uid) (products st))
            (filter (fun c => String.eqb (c_user_id c) uid) (customers st))
            (filter (fun s => String.eqb (s_user_id s) uid) (sales st)))
  end.

(** ** Lines of a sale, as requested and as stored *)

(** Product, quantity and unit price of a stored sale item. *)
Definition line_of_row (r : SaleItem) : Z * Z * Z :=
  (si_product_id r, si_quantity r, si_unit_price r).

Definition line_of_info (info : ItemInfo) : Z * Z * Z :=
  (item_product_id info, item_quantity info, info_unit_price info).

(** The same three values read off an item of the request. *)
Definition request_line (uid : string) (st : Store) (item : ItemReq)
  : Z * Z * Z :=
  (match product_id item with
   | Some pid => pid
   | None => 0
   end,
   requested_quantity item,
   effective_unit_price uid st item).

(** The sale items of one sale. *)
Definition items_of_sale (sale_id : Z) (st : Store) : list SaleItem :=
  filter (fun r => si_sale_id r =? sale_id) (sale_items st).

(** No product is out of stock by a negative amount. *)
Definition stock_nonnegative (st : Store) : Prop :=
  forall p, In p (products st) -> 0 <= p_stock p.

(** A product with its stock blanked: what [create_sale] never writes. *)
Definition without_stock (p : Product) : Product := set_stock 0 p.

(** The example of the specification: six units of product 1, which has
    10 in stock and a low-stock threshold of 5. *)
Definition six_of_the_first : SaleReq :=
  mkSaleReq (Some [line 1 6]) None None.

(** A request that changes the price and nothing else. *)
Definition reprice (z : Z) : ProductReq :=
  mkProductReq None (Some (JNum z)) None None None.

(** A request that sets every key, the stock as a string. *)
Definition full_update : ProductReq :=
  mkProductReq (Some "Jabon fino") (Some (JNum 0)) (Some (JStr "7"))
               (Some "bano") (Some (JNum 2)).

Definition new_customer : CustomerReq :=
  mkCustomerReq (Some "Carla") None (Some "600").

(** Whether a string holds a blank. *)
Fixpoint has_space (s : string) : bool :=
  match s with
  | EmptyString => false
  | String c s' => Ascii.eqb c " " || has_space s'
  end.

(** [n] times the prefix ["Bearer "]. *)
Fixpoint bearers (n : nat) : string :=
  match n with
  | O => EmptyString
  | S k => ("Bearer " ++ bearers k)%string
  end.

(** What [check_auth] makes of an answer of the identity service. *)
Definition user_of_reply (r : AuthReply) : option User :=
  match r with
  | AuthUser u => Some u
  | AuthRaised | AuthNoUser => None
  end.

(** An identity service that knows one token. *)
Definition one_token_service (token : string) : AuthReply :=
  if String.eqb token "abc.def" then AuthUser (mkUser "alice" "a@example.org")
  else AuthNoUser.

(** A request that [check_auth] turns down has no [Authorization] header,
    or one that does not start with ["Bearer "], or a token for which the
    identity service raises or gives no user. *)
Definition turned_down (get_user : string -> AuthReply)
    (auth_header : option string) : Prop :=
  auth_header = None \/
  exists h, auth_header = Some h /\
    (startswith "Bearer " h = false \/
     get_user (remove_all "Bearer " 0 h) = AuthRaised \/
     get_user (remove_all "Bearer " 0 h) = AuthNoUser).

(** ** The first loop *)

Section FirstLoop.

Variable uid : string.
Variable st : Store.

Lemma lookup_product_sound pid p :
  lookup_product pid uid st = Some p ->
  In p (products st) /\ p_id p = pid /\ p_user_id p = uid.
Proof.
  unfold lookup_product, select_products_by_id_user.
  destruct (filter _ (products st)) as [|q l] eqn:E; simpl; [discriminate|].
  intros [= ->].
  assert (H : In p (filter
    (fun p => (p_id p =? pid) && String.eqb (p_user_id p) uid) (products st)))
    by (rewrite E; left; reflexivity).
  apply filter_In in H. destruct H as [Hin Hb].
  apply andb_true_iff in Hb. destruct Hb as [Hi Hu].
  apply Z.eqb_eq in Hi. apply String.eqb_eq in Hu. auto.
Qed.

Lemma info_of_sound item info :
  info_of uid st item = Some info ->
  product_id item = Some (item_product_id info) /\
  quantity item = Some (item_quantity info) /\
  lookup_product (item_product_id info) uid st = Some (product info) /\
  info_unit_price info = effective_unit_price uid st item.
Proof.
  unfold info_of.
  destruct (product_id item) as [pid|]; [|discriminate].
  destruct (quantity item) as [qty|]; [|discriminate].
  destruct (lookup_product pid uid st) as [p|] eqn:L; [|discriminate].
  intros [= <-]. simpl. auto.
Qed.

(** One iteration of the first loop that does not return. *)
Lemma check_items_step item rest total acc res :
  check_items uid st (item :: rest) total acc = inr res ->
  exists info,
    item_passes uid st item info /\
    check_items uid st rest (total + line_amount uid st item) (acc ++ [info])
      = inr res.
Proof.
  simpl. unfold item_passes, info_of, line_amount, effective_unit_price,
    requested_quantity, lookup_product.
  destruct (product_id item) as [pid|]; [|discriminate].
  destruct (quantity item) as [qty|]; [|discriminate].
  destruct (pid =? 0) eqn:Hp; [discriminate|].
  destruct (qty =? 0) eqn:Hq; [discriminate|]. simpl.
  destruct (select_products_by_id_user pid uid st) as [|p l]; [discriminate|].
  simpl.
  destruct (p_stock p <? qty) eqn:Hs; [discriminate|].
  intros H. eexists. split; [|exact H]. simpl.
  apply Z.eqb_neq in Hp. apply Z.eqb_neq in Hq. apply Z.ltb_ge in Hs.
  repeat split; auto.
Qed.

Lemma check_items_ok its : forall total acc t infos,
  check_items uid st its total acc = inr (t, infos) ->
  exists new,
    infos = acc ++ new /\
    Forall2 (item_passes uid st) its new /\
    t = total + expected_total uid st its.
Proof.
  induction its as [|item rest IH]; intros total acc t infos H.
  - simpl in H. injection H as <- <-. exists []. rewrite app_nil_r.
    unfold expected_total. simpl. repeat split; [constructor|lia].
  - apply check_items_step in H. destruct H as (info & Hpass & H).
    apply IH in H. destruct H as (new & -> & HF & ->).
    exists (info :: new). rewrite <- app_assoc. simpl.
    repeat split; [constructor; assumption|].
    unfold expected_total. simpl. lia.
Qed.

(** Conversely, an item that passes lets the loop go on. *)
Lemma check_items_pass item rest total acc info :
  item_passes uid st item info ->
  check_items uid st (item :: rest) total acc
    = check_items uid st rest (total + line_amount uid st item)
        (acc ++ [info]).
Proof.
  unfold item_passes, info_of, line_amount, effective_unit_price,
    requested_quantity, lookup_product. simpl.
  destruct (product_id item) as [pid|]; [|intros [[=] _]].
  destruct (quantity item) as [qty|]; [|intros [[=] _]].
  destruct (select_products_by_id_user pid uid st) as [|p l];
    [intros [[=] _]|].
  simpl. intros ([= <-] & Hp & Hq & Hs). simpl in *.
  apply Z.eqb_neq in Hp. apply Z.eqb_neq in Hq. apply Z.ltb_ge in Hs.
  rewrite Hp, Hq, Hs. simpl. destruct (unit_price item); reflexivity.
Qed.

Lemma check_items_complete its : forall new total acc,
  Forall2 (item_passes uid st) its new ->
  check_items uid st its total acc
    = inr (total + expected_total uid st its, acc ++ new).
Proof.
  induction its as [|item rest IH]; intros new total acc HF.
  - inversion HF; subst. simpl. rewrite app_nil_r.
    unfold expected_total. simpl. f_equal. f_equal. lia.
  - inversion HF as [|? info ? new' Hpass HF']; subst.
    rewrite (check_items_pass _ _ _ _ _ Hpass), (IH _ _ _ HF').
    rewrite <- app_assoc. unfold expected_total. simpl.
    f_equal. f_equal. lia.
Qed.

End FirstLoop.

(** ** The second loop *)

Lemma filter_id_nonempty pid ps :
  In pid (map p_id ps) -> filter (fun p => p_id p =? pid) ps <> [].
Proof.
  intros H. apply in_map_iff in H. destruct H as (p & Hid & Hin).
  intros E.
  assert (Hf : In p (filter (fun p => p_id p =? pid) ps)).
  { apply filter_In. split; [exact Hin|]. apply Z.eqb_eq. exact Hid. }
  rewrite E in Hf. contradiction.
Qed.

Lemma write_stock_ids ps info : map p_id (write_stock ps info) = map p_id ps.
Proof.
  unfold write_stock. rewrite map_map. apply map_ext.
  intros p. destruct (p_id p =? p_id (product info)); reflexivity.
Qed.

Section SecondLoop.

Variable f : Faults.
Variable sale_id : Z.

(** An iteration in which the store serves both writes. *)
Lemma process_items_served info rest i st :
  item_insert f i = Served ->
  stock_update f i = Served ->
  In (p_id (product info)) (map p_id (products st)) ->
  process_items f sale_id i (info :: rest) st
    = process_items f sale_id (S i) rest (after_item sale_id st info).
Proof.
  intros Hi Hu Hin. simpl. unfold insert_sale_item. rewrite Hi.
  unfold update_stock_by_id. rewrite Hu. simpl.
  apply filter_id_nonempty in Hin.
  destruct (filter (fun p => p_id p =? p_id (product info)) (products st));
    [contradiction|]. reflexivity.
Qed.

(** The item insert is answered without rows: lines 329-333. *)
Lemma process_items_insert_refused info rest i st :
  item_insert f i = NoRows ->
  process_items f sale_id i (info :: rest) st
    = (Some (400, BError ("Error creando item para "
                            ++ p_name (product info))%string),
       delete_sales_by_id sale_id st).
Proof.
  intros Hi. simpl. unfold insert_sale_item. rewrite Hi. reflexivity.
Qed.

(** The stock update is answered without rows: lines 344-349. *)
Lemma process_items_update_refused info rest i st :
  item_insert f i = Served ->
  stock_update f i = NoRows ->
  process_items f sale_id i (info :: rest) st
    = (Some (400, BError ("Error actualizando stock para "
                            ++ p_name (product info))%string),
       delete_sale_items_by_sale_id sale_id
         (delete_sales_by_id sale_id
            (mkStore (products st) (customers st) (sales st)
               (sale_items st ++
                  [mkSaleItem (item_seq st) sale_id (item_product_id info)
                     (item_quantity info) (info_unit_price info)])
               (product_seq st) (sale_seq st) (item_seq st + 1)))).
Proof.
  intros Hi Hu. simpl. unfold insert_sale_item. rewrite Hi.
  unfold update_stock_by_id. rewrite Hu. reflexivity.
Qed.

(** The item insert raises: the [except] clause answers, and nothing is
    deleted. *)
Lemma process_items_insert_raises info rest i st msg :
  item_insert f i = Raises msg ->
  process_items f sale_id i (info :: rest) st
    = (Some (internal_error msg), st).
Proof.
  intros Hi. simpl. unfold insert_sale_item. rewrite Hi. reflexivity.
Qed.

(** The stock update raises: the [except] clause answers, and the item
    inserted just before stays. *)
Lemma process_items_update_raises info rest i st msg :
  item_insert f i = Served ->
  stock_update f i = Raises msg ->
  process_items f sale_id i (info :: rest) st
    = (Some (internal_error msg),
       mkStore (products st) (customers st) (sales st)
         (sale_items st ++
            [mkSaleItem (item_seq st) sale_id (item_product_id info)
               (item_quantity info) (info_unit_price info)])
         (product_seq st) (sale_seq st) (item_seq st + 1)).
Proof.
  intros Hi Hu. simpl. unfold insert_sale_item. rewrite Hi.
  unfold update_stock_by_id. rewrite Hu. reflexivity.
Qed.

(** A run of the loop that reaches its end has served every item. *)
Lemma process_items_completed infos : forall i st st',
  process_items f sale_id i infos st = (None, st') ->
  st' = after_items sale_id infos st.
Proof.
  induction infos as [|info rest IH]; intros i st st' H.
  - simpl in H. injection H as <-. reflexivity.
  - simpl in H. unfold insert_sale_item in H.
    destruct (item_insert f i); [|discriminate..].
    unfold update_stock_by_id in H.
    destruct (stock_update f i); [|discriminate..].
    cbn [products fst snd] in H.
    destruct (filter _ (products st)); [discriminate|].
    apply IH in H. exact H.
Qed.

(** The first items of the list are served one after the other. *)
Lemma process_items_prefix pre : forall post i st,
  (forall j, (j < List.length pre)%nat ->
     item_insert f (i + j) = Served /\ stock_update f (i + j) = Served) ->
  (forall info, In info pre ->
     In (p_id (product info)) (map p_id (products st))) ->
  process_items f sale_id i (pre ++ post) st
    = process_items f sale_id (i + List.length pre) post
        (after_items sale_id pre st).
Proof.
  induction pre as [|info pre IH]; intros post i st Hok Hids.
  - simpl. rewrite Nat.add_0_r. reflexivity.
  - destruct (Hok 0%nat) as [Hi Hu]; [simpl; lia|].
    rewrite Nat.add_0_r in Hi, Hu.
    change ((info :: pre) ++ post) with (info :: (pre ++ post)).
    rewrite process_items_served; auto; [|apply Hids; left; reflexivity].
    rewrite IH.
    + simpl. f_equal. lia.
    + intros j Hj. replace (S i + j)%nat with (i + S j)%nat by lia.
      apply Hok. simpl. lia.
    + intros info' Hin. simpl. rewrite write_stock_ids.
      apply Hids. right. exact Hin.
Qed.

End SecondLoop.

(** What [after_items] leaves in each table. *)
Lemma after_items_products sale_id infos : forall st,
  products (after_items sale_id infos st) = stock_writes infos (products st).
Proof.
  induction infos as [|info rest IH]; intros st; [reflexivity|].
  unfold after_items, stock_writes in *. simpl. rewrite IH. reflexivity.
Qed.

Lemma after_items_sales sale_id infos : forall st,
  sales (after_items sale_id infos st) = sales st.
Proof.
  induction infos as [|info rest IH]; intros st; [reflexivity|].
  unfold after_items in *. simpl. rewrite IH. reflexivity.
Qed.

Lemma after_items_sale_items sale_id infos : forall st,
  exists rows,
    sale_items (after_items sale_id infos st) = sale_items st ++ rows /\
    Forall (fun r => si_sale_id r = sale_id) rows /\
    List.length rows = List.length infos.
Proof.
  induction infos as [|info rest IH]; intros st.
  - exists []. simpl. rewrite app_nil_r. auto.
  - unfold after_items in *. simpl.
    destruct (IH (after_item sale_id st info)) as (rows & E & HF & HL).
    eexists (_ :: rows). rewrite E. simpl. rewrite <- app_assoc. simpl.
    repeat split; [constructor; [reflexivity|exact HF]|]. simpl. lia.
Qed.

Lemma lookup_product_find pid uid st :
  lookup_product pid uid st = find_product pid uid (products st).
Proof. reflexivity. Qed.

Lemma find_product_write pid uid ps info :
  find_product pid uid (write_stock ps info)
  = option_map
      (fun p => if pid =? p_id (product info)
                then set_stock (p_stock (product info) - item_quantity info) p
                else p)
      (find_product pid uid ps).
Proof.
  unfold find_product, write_stock.
  induction ps as [|a ps IH]; simpl; [reflexivity|].
  assert (Hsame :
    (p_id (if p_id a =? p_id (product info)
           then set_stock (p_stock (product info) - item_quantity info) a
           else a) =? pid)
    && String.eqb
         (p_user_id (if p_id a =? p_id (product info)
                     then set_stock (p_stock (product info)
                                     - item_quantity info) a
                     else a)) uid
    = (p_id a =? pid) && String.eqb (p_user_id a) uid).
  { destruct (p_id a =? p_id (product info)); reflexivity. }
  rewrite Hsame.
  destruct ((p_id a =? pid) && String.eqb (p_user_id a) uid) eqn:E;
    [|exact IH].
  simpl. apply andb_true_iff in E. destruct E as [E _].
  apply Z.eqb_eq in E. rewrite E. reflexivity.
Qed.

Lemma stock_writes_other pid uid infos : forall ps,
  (forall info, In info infos -> p_id (product info) <> pid) ->
  find_product pid uid (stock_writes infos ps) = find_product pid uid ps.
Proof.
  induction infos as [|info rest IH]; intros ps H; [reflexivity|].
  unfold stock_writes in *. simpl. rewrite IH.
  - rewrite find_product_write.
    assert (Hne : (pid =? p_id (product info)) = false).
    { apply Z.eqb_neq. intros E. apply (H info); [left; reflexivity|].
      symmetry. exact E. }
    rewrite Hne. destruct (find_product pid uid ps); reflexivity.
  - intros info' Hin. apply H. right. exact Hin.
Qed.

Lemma stock_writes_found pid uid infos : forall ps p,
  find_product pid uid ps = Some p ->
  exists p', find_product pid uid (stock_writes infos ps) = Some p'.
Proof.
  induction infos as [|info rest IH]; intros ps p H; [exists p; exact H|].
  unfold stock_writes in *. simpl.
  apply (IH _ (if pid =? p_id (product info)
               then set_stock (p_stock (product info) - item_quantity info) p
               else p)).
  rewrite find_product_write, H. reflexivity.
Qed.

(** The last write to a product decides what is read back: its snapshot
    stock minus its quantity. *)
Lemma stock_writes_last uid l1 info l2 ps p0 :
  (forall info', In info' l2 -> p_id (product info') <> p_id (product info)) ->
  find_product (p_id (product info)) uid ps = Some p0 ->
  option_map p_stock
    (find_product (p_id (product info)) uid
       (stock_writes (l1 ++ info :: l2) ps))
  = Some (p_stock (product info) - item_quantity info).
Proof.
  intros Hlater Hfound. unfold stock_writes.
  rewrite fold_left_app. simpl.
  fold (stock_writes l1 ps).
  fold (stock_writes l2 (write_stock (stock_writes l1 ps) info)).
  rewrite stock_writes_other by exact Hlater.
  rewrite find_product_write.
  destruct (stock_writes_found _ uid l1 _ _ Hfound) as (p1 & ->).
  simpl. rewrite Z.eqb_refl. reflexivity.
Qed.

(** ** Shape of the responses *)

Lemma check_items_rejects uid st its : forall total acc r,
  check_items uid st its total acc = inl r ->
  fst r = 400 \/ fst r = 404.
Proof.
  induction its as [|item rest IH]; intros total acc r; simpl;
    [discriminate|].
  destruct (product_id item) as [pid|]; [|intros [= <-]; auto].
  destruct (quantity item) as [qty|]; [|intros [= <-]; auto].
  destruct ((pid =? 0) || (qty =? 0)); [intros [= <-]; auto|].
  destruct (select_products_by_id_user pid uid st) as [|p l];
    [intros [= <-]; auto|].
  destruct (p_stock p <? qty); [intros [= <-]; auto|]. apply IH.
Qed.

Lemma process_items_aborts f sale_id infos : forall i st r st',
  process_items f sale_id i infos st = (Some r, st') ->
  fst r = 400 \/ fst r = 500.
Proof.
  induction infos as [|info rest IH]; intros i st r st'; simpl;
    [discriminate|].
  destruct (insert_sale_item _ _ _ _ _ st) as [[[|row rows]|msg] st1];
    [intros [= <- _]; auto| |intros [= <- _]; auto].
  destruct (update_stock_by_id _ _ _ st1) as [[[|q qs]|msg] st2];
    [intros [= <- _]; auto| |intros [= <- _]; auto].
  apply IH.
Qed.

(** A request that passes the first loop, with a header the store
    accepts, reaches the second loop. *)
Lemma create_sale_reaches_items f uid data st its infos :
  items data = Some its ->
  its <> [] ->
  Forall2 (item_passes uid st) its infos ->
  sale_insert f = Served ->
  create_sale f (Some uid) data st
  = match process_items f (sale_seq st) 0 infos
            (with_header (header_of uid data st) st) with
    | (Some r, st2) => (r, st2)
    | (None, st2) => ((200, BSale (header_of uid data st)), st2)
    end.
Proof.
  intros Hits Hne HF Hok. unfold create_sale. rewrite Hits.
  destruct its as [|item rest]; [contradiction|].
  rewrite (check_items_complete uid st _ infos 0 [] HF).
  unfold insert_sale. rewrite Hok. simpl.
  unfold header_of, request_items, with_header. rewrite Hits. reflexivity.
Qed.

(** A 200 response comes from a request that went through both loops. *)
Lemma create_sale_success f user data st body st' :
  create_sale f user data st = ((200, body), st') ->
  exists uid infos,
    user = Some uid /\
    Forall2 (item_passes uid st) (request_items data) infos /\
    body = BSale (header_of uid data st) /\
    st' = after_items (sale_seq st) infos
            (with_header (header_of uid data st) st).
Proof.
  unfold create_sale. destruct user as [uid|]; [|discriminate].
  destruct (items data) as [its|] eqn:Hits; [|discriminate].
  destruct its as [|item rest]; [discriminate|].
  destruct (check_items uid st (item :: rest) 0 []) as [r|[total infos]] eqn:C.
  - intros [= -> _]. apply check_items_rejects in C.
    simpl in C. destruct C; discriminate.
  - apply check_items_ok in C. destruct C as (new & E & HF & Ht).
    simpl in E. subst infos.
    unfold insert_sale. destruct (sale_insert f); [|discriminate..].
    cbn [s_id].
    destruct (process_items f (sale_seq st) 0 new _) as [[r|] st2] eqn:P.
    + intros [= -> _]. apply process_items_aborts in P.
      destruct P; discriminate.
    + intros [= <- <-]. apply process_items_completed in P.
      exists uid, new. unfold header_of, request_items, with_header.
      rewrite Hits. rewrite Z.add_0_l in Ht. subst total st2. auto.
Qed.

(** ** Requests that stop in the second loop *)

Lemma Forall2_In_r {A B} (R : A -> B -> Prop) l l' y :
  Forall2 R l l' -> In y l' -> exists x, In x l /\ R x y.
Proof.
  induction 1 as [|x y' l l' HR HF IH]; simpl; [contradiction|].
  intros [<-|Hin].
  - exists x. auto.
  - destruct (IH Hin) as (x' & Hx & HRx). exists x'. auto.
Qed.

Lemma item_passes_product_id uid st item info :
  item_passes uid st item info ->
  product_id item = Some (p_id (product info)) /\
  In (product info) (products st).
Proof.
  intros (Hinfo & _). apply info_of_sound in Hinfo.
  destruct Hinfo as (Hp & _ & Hl & _).
  apply lookup_product_sound in Hl. destruct Hl as (Hin & Hid & _).
  rewrite Hid. auto.
Qed.

(** After the writes for a list of passing items, the stock rule holds for
    each item whose product no later item of the list refers to. *)
Lemma stock_rule_after_writes uid st st' l1 item l2 infos :
  Forall2 (item_passes uid st) (l1 ++ item :: l2) infos ->
  products st' = stock_writes infos (products st) ->
  (forall item', In item' l2 -> product_id item' <> product_id item) ->
  stock_rule uid st st' item.
Proof.
  intros HF Hps Hlater.
  apply Forall2_app_inv_l in HF.
  destruct HF as (n1 & n' & HF1 & HF2 & ->).
  inversion HF2 as [|? info ? n2 Hpass HF3]; subst.
  pose proof Hpass as (Hinfo & _).
  apply info_of_sound in Hinfo. destruct Hinfo as (Hp & Hq & Hl & _).
  pose proof (lookup_product_sound _ _ _ _ Hl) as (_ & Hid & _).
  exists (item_product_id info), (item_quantity info),
         (p_stock (product info)).
  repeat split; auto.
  - unfold stock_of. rewrite Hl. reflexivity.
  - unfold stock_of. rewrite lookup_product_find, Hps, <- Hid.
    apply stock_writes_last with (p0 := product info).
    + intros info' Hin E.
      destruct (Forall2_In_r _ _ _ _ HF3 Hin) as (item' & Hin' & Hpass').
      apply (Hlater item' Hin').
      apply item_passes_product_id in Hpass'. destruct Hpass' as (E' & _).
      rewrite E', E, Hid. symmetry. exact Hp.
    + rewrite Hid, <- lookup_product_find. exact Hl.
Qed.

Lemma not_in_after_delete_sales sale_id st s :
  In s (sales (delete_sales_by_id sale_id st)) ->
  s_id s <> sale_id /\ In s (sales st).
Proof.
  simpl. intros H. apply filter_In in H. destruct H as [Hin Hb].
  apply negb_true_iff in Hb. apply Z.eqb_neq in Hb. auto.
Qed.

Section PartialFailure.

Variable f : Faults.
Variable uid : string.
Variable data : SaleReq.
Variable st : Store.
Variables pre post : list ItemReq.
Variable item : ItemReq.
Variable infos : list ItemInfo.
Hypothesis request_shape : items data = Some (pre ++ item :: post).
Hypothesis request_valid :
  Forall2 (item_passes uid st) (pre ++ item :: post) infos.
Hypothesis header_served : sale_insert f = Served.
Hypothesis earlier_served :
  forall j, (j < List.length pre)%nat ->
    item_insert f j = Served /\ stock_update f j = Served.

(** The call gets as far as the item at position [length pre]. *)
Lemma create_sale_gets_to_item :
  exists pre_i info post_i,
    infos = pre_i ++ info :: post_i /\
    Forall2 (item_passes uid st) pre pre_i /\
    item_passes uid st item info /\
    create_sale f (Some uid) data st
    = match process_items f (sale_seq st) (List.length pre) (info :: post_i)
              (after_items (sale_seq st) pre_i
                 (with_header (header_of uid data st) st)) with
      | (Some r, st2) => (r, st2)
      | (None, st2) => ((200, BSale (header_of uid data st)), st2)
      end.
Proof.
  pose proof request_valid as HF.
  apply Forall2_app_inv_l in HF.
  destruct HF as (pre_i & n' & HF1 & HF2 & E).
  destruct n' as [|info post_i]; [inversion HF2|].
  assert (Hpass : item_passes uid st item info) by (inversion HF2; auto).
  exists pre_i, info, post_i.
  split; [exact E|]. split; [exact HF1|]. split; [exact Hpass|].
  rewrite (create_sale_reaches_items f uid data st _ infos request_shape);
    [|destruct pre; discriminate|exact request_valid|exact header_served].
  rewrite E, process_items_prefix.
  - simpl. rewrite (Forall2_length HF1). reflexivity.
  - intros j Hj. simpl. apply earlier_served.
    rewrite (Forall2_length HF1). exact Hj.
  - intros info' Hin. simpl.
    destruct (Forall2_In_r _ _ _ _ HF1 Hin) as (item' & _ & Hpass').
    apply item_passes_product_id in Hpass'. destruct Hpass' as (_ & Hin').
    apply in_map. exact Hin'.
Qed.

Lemma item_passes_referenced it info :
  item_passes uid st it info ->
  referenced_product uid st it = Some (product info).
Proof.
  intros (Hinfo & _). apply info_of_sound in Hinfo.
  destruct Hinfo as (Hp & _ & Hl & _).
  unfold referenced_product. rewrite Hp. exact Hl.
Qed.

Lemma insert_refused_outcome :
  item_insert f (List.length pre) = NoRows ->
  exists pre_i info,
    Forall2 (item_passes uid st) pre pre_i /\
    item_passes uid st item info /\
    create_sale f (Some uid) data st
    = ((400, BError ("Error creando item para "
                       ++ p_name (product info))%string),
       delete_sales_by_id (sale_seq st)
         (after_items (sale_seq st) pre_i
            (with_header (header_of uid data st) st))).
Proof.
  intros Hno.
  destruct create_sale_gets_to_item
    as (pre_i & info & post_i & _ & HF1 & Hpass & ->).
  exists pre_i, info. split; [exact HF1|]. split; [exact Hpass|].
  rewrite process_items_insert_refused by exact Hno. reflexivity.
Qed.

Lemma update_refused_outcome :
  item_insert f (List.length pre) = Served ->
  stock_update f (List.length pre) = NoRows ->
  exists pre_i info st1,
    Forall2 (item_passes uid st) pre pre_i /\
    item_passes uid st item info /\
    st1 = after_items (sale_seq st) pre_i
            (with_header (header_of uid data st) st) /\
    create_sale f (Some uid) data st
    = ((400, BError ("Error actualizando stock para "
                       ++ p_name (product info))%string),
       delete_sale_items_by_sale_id (sale_seq st)
         (delete_sales_by_id (sale_seq st)
            (mkStore (products st1) (customers st1) (sales st1)
               (sale_items st1 ++
                  [mkSaleItem (item_seq st1) (sale_seq st)
                     (item_product_id info) (item_quantity info)
                     (info_unit_price info)])
               (product_seq st1) (sale_seq st1) (item_seq st1 + 1)))).
Proof.
  intros Hins Hno.
  destruct create_sale_gets_to_item
    as (pre_i & info & post_i & _ & HF1 & Hpass & ->).
  exists pre_i, info. eexists.
  split; [exact HF1|]. split; [exact Hpass|]. split; [reflexivity|].
  rewrite process_items_update_refused by assumption. reflexivity.
Qed.

Lemma insert_raises_outcome msg :
  item_insert f (List.length pre) = Raises msg ->
  exists pre_i,
    Forall2 (item_passes uid st) pre pre_i /\
    create_sale f (Some uid) data st
    = (internal_error msg,
       after_items (sale_seq st) pre_i
         (with_header (header_of uid data st) st)).
Proof.
  intros Hno.
  destruct create_sale_gets_to_item
    as (pre_i & info & post_i & _ & HF1 & _ & ->).
  exists pre_i. split; [exact HF1|].
  rewrite (process_items_insert_raises _ _ _ _ _ _ msg) by exact Hno.
  reflexivity.
Qed.

Lemma update_raises_outcome msg :
  item_insert f (List.length pre) = Served ->
  stock_update f (List.length pre) = Raises msg ->
  exists pre_i info st1,
    Forall2 (item_passes uid st) pre pre_i /\
    item_passes uid st item info /\
    st1 = after_items (sale_seq st) pre_i
            (with_header (header_of uid data st) st) /\
    create_sale f (Some uid) data st
    = (internal_error msg,
       mkStore (products st1) (customers st1) (sales st1)
         (sale_items st1 ++
            [mkSaleItem (item_seq st1) (sale_seq st)
               (item_product_id info) (item_quantity info)
               (info_unit_price info)])
         (product_seq st1) (sale_seq st1) (item_seq st1 + 1)).
Proof.
  intros Hins Hno.
  destruct create_sale_gets_to_item
    as (pre_i & info & post_i & _ & HF1 & Hpass & ->).
  exists pre_i, info. eexists.
  split; [exact HF1|]. split; [exact Hpass|]. split; [reflexivity|].
  rewrite (process_items_update_raises _ _ _ _ _ _ msg) by assumption.
  reflexivity.
Qed.

(** *** Compensation *)

(** The path of lines 329-333: when the insert of a sale item is answered
    without rows after the header went in, the call deletes the header
    before it returns: no row of [sales] carries the identity the header
    was given, no row is there that was not there before, and the error
    names the product of that item. *)
Lemma empty_item_insert_deletes_header :
  item_insert f (List.length pre) = NoRows ->
  exists p st',
    referenced_product uid st item = Some p /\
    create_sale f (Some uid) data st
    = ((400, BError ("Error creando item para " ++ p_name p)%string), st') /\
    forall s, In s (sales st') -> s_id s <> sale_seq st /\ In s (sales st).
Proof.
  intros Hno.
  destruct (insert_refused_outcome Hno)
    as (pre_i & info & _ & Hpass & E).
  exists (product info). eexists. split; [|split; [exact E|]].
  - apply item_passes_referenced. exact Hpass.
  - intros s Hs. apply not_in_after_delete_sales in Hs.
    destruct Hs as [Hid Hin]. split; [exact Hid|].
    rewrite after_items_sales in Hin. simpl in Hin.
    apply in_app_or in Hin. destruct Hin as [Hin|[<-|[]]]; [exact Hin|].
    simpl in Hid. contradiction.
Qed.

(** C3: the compensating delete is not reached when the insert of a sale
    item fails by raising.  After the header and the earlier items went
    in, an insert that raises [msg] takes the call to the [except] clause:
    the answer is the 500 built from [msg], which says nothing of the
    product, and the header is still the last row of [sales]. *)
Theorem raising_item_insert_keeps_header msg :
  item_insert f (List.length pre) = Raises msg ->
  exists st',
    create_sale f (Some uid) data st = (internal_error msg, st') /\
    s_id (header_of uid data st) = sale_seq st /\
    sales st' = sales st ++ [header_of uid data st].
Proof.
  intros Hno.
  destruct (insert_raises_outcome msg Hno) as (pre_i & _ & E).
  eexists. split; [exact E|]. split; [reflexivity|].
  rewrite after_items_sales. reflexivity.
Qed.

(** The path of lines 344-349: when a stock update is answered without
    rows, the call deletes the header and every sale item of that sale
    before it returns, and the error names the product whose update
    failed. *)
Lemma empty_stock_update_deletes_sale :
  item_insert f (List.length pre) = Served ->
  stock_update f (List.length pre) = NoRows ->
  exists p st',
    referenced_product uid st item = Some p /\
    create_sale f (Some uid) data st
    = ((400, BError ("Error actualizando stock para " ++ p_name p)%string),
       st') /\
    (forall s, In s (sales st') -> s_id s <> sale_seq st /\ In s (sales st)) /\
    (forall r, In r (sale_items st') ->
       si_sale_id r <> sale_seq st /\ In r (sale_items st)).
Proof.
  intros Hins Hno.
  destruct (update_refused_outcome Hins Hno)
    as (pre_i & info & st1 & _ & Hpass & Est1 & E).
  exists (product info). eexists. split; [|split; [exact E|split]].
  - apply item_passes_referenced. exact Hpass.
  - intros s Hs. simpl in Hs. apply filter_In in Hs.
    destruct Hs as [Hin Hb].
    apply negb_true_iff in Hb. apply Z.eqb_neq in Hb. split; [exact Hb|].
    rewrite Est1, after_items_sales in Hin. simpl in Hin.
    apply in_app_or in Hin. destruct Hin as [Hin|[<-|[]]]; [exact Hin|].
    simpl in Hb. contradiction.
  - intros r Hr. simpl in Hr. apply filter_In in Hr.
    destruct Hr as [Hin Hb].
    apply negb_true_iff in Hb. apply Z.eqb_neq in Hb. split; [exact Hb|].
    destruct (after_items_sale_items (sale_seq st) pre_i
                (with_header (header_of uid data st) st))
      as (rows & Erows & Hrows & _).
    rewrite Est1, Erows in Hin. simpl in Hin.
    apply in_app_or in Hin. destruct Hin as [Hin|[<-|[]]].
    + apply in_app_or in Hin. destruct Hin as [Hin|Hin]; [exact Hin|].
      rewrite Forall_forall in Hrows. apply Hrows in Hin. contradiction.
    + simpl in Hb. contradiction.
Qed.

(** C4: the two compensating deletes are not reached when the stock
    update fails by raising.  After the header, the earlier items and the
    sale item of this item went in, an update that raises [msg] takes the
    call to the [except] clause: the answer is the 500 built from [msg],
    the header is still the last row of [sales], and [sale_items] has
    gained one row of this sale for each earlier item and one for this
    item. *)
Theorem raising_stock_update_keeps_sale msg :
  item_insert f (List.length pre) = Served ->
  stock_update f (List.length pre) = Raises msg ->
  exists st' rows,
    create_sale f (Some uid) data st = (internal_error msg, st') /\
    s_id (header_of uid data st) = sale_seq st /\
    sales st' = sales st ++ [header_of uid data st] /\
    sale_items st' = sale_items st ++ rows /\
    List.length rows = S (List.length pre) /\
    Forall (fun r => si_sale_id r = sale_seq st) rows.
Proof.
  intros Hins Hno.
  destruct (update_raises_outcome msg Hins Hno)
    as (pre_i & info & st1 & HF1 & _ & Est1 & E).
  destruct (after_items_sale_items (sale_seq st) pre_i
              (with_header (header_of uid data st) st))
    as (rows & Erows & Hrows & Hlen).
  eexists. eexists (rows ++ [_]). split; [exact E|].
  split; [reflexivity|]. cbn [sales sale_items].
  rewrite Est1, after_items_sales, Erows.
  split; [reflexivity|]. split; [rewrite <- app_assoc; reflexivity|].
  split.
  - rewrite length_app, Hlen, (Forall2_length HF1). simpl. lia.
  - apply Forall_app. split; [exact Hrows|].
    constructor; [reflexivity|constructor].
Qed.



End PartialFailure.

(** ** The sale total *)

(** C1: a sale request that succeeds persists a Sale whose total is the
    sum over the request's items of effective unit price times quantity,
    the effective unit price being the item's [unit_price] when it has one
    and the catalog price of the product otherwise; a total sent by the
    client changes nothing. *)
Theorem sale_total_is_sum_of_lines f user data st body st' :
  create_sale f user data st = ((200, body), st') ->
  exists uid sale,
    user = Some uid /\
    body = BSale sale /\
    In sale (sales st') /\
    s_id sale = sale_seq st /\
    s_total sale = expected_total uid st (request_items data) /\
    forall t,
      create_sale f user (mkSaleReq (items data) (customer_id data) t) st
      = ((200, body), st').
Proof.
  intros H. pose proof H as H0.
  apply create_sale_success in H0.
  destruct H0 as (uid & infos & -> & HF & -> & ->).
  exists uid, (header_of uid data st).
  repeat split.
  - rewrite after_items_sales. simpl. apply in_or_app. right. left.
    reflexivity.
  - intros t. rewrite <- H. reflexivity.
Qed.

Lemma sale_total_is_sum_of_lines_witness :
  create_sale no_faults (Some "alice") two_line_sale shop
  = ((200, BSale (mkSale 1 24 None "alice")),
     snd (create_sale no_faults (Some "alice") two_line_sale shop)) /\
  exists uid sale,
    Some "alice" = Some uid /\
    BSale (mkSale 1 24 None "alice") = BSale sale /\
    In sale (sales (snd (create_sale no_faults (Some "alice")
                           two_line_sale shop))) /\
    s_id sale = sale_seq shop /\
    s_total sale = expected_total uid shop (request_items two_line_sale) /\
    forall t,
      create_sale no_faults (Some "alice")
        (mkSaleReq (items two_line_sale) (customer_id two_line_sale) t) shop
      = ((200, BSale (mkSale 1 24 None "alice")),
         snd (create_sale no_faults (Some "alice") two_line_sale shop)).
Proof.
  split; [reflexivity|].
  apply (sale_total_is_sum_of_lines no_faults (Some "alice") two_line_sale
           shop).
  reflexivity.
Defined.

(** ** Stock after a successful sale *)

(** After a successful sale whose items refer to pairwise different
    products, what is read back for the product of each item is its stock
    before the sale minus the item's quantity. *)
Lemma stock_after_sale f user data st body st' :
  create_sale f user data st = ((200, body), st') ->
  NoDup (map product_id (request_items data)) ->
  forall item, In item (request_items data) ->
  exists uid, user = Some uid /\ stock_rule uid st st' item.
Proof.
  intros H Hnd item Hin.
  apply create_sale_success in H.
  destruct H as (uid & infos & -> & HF & _ & ->).
  exists uid. split; [reflexivity|].
  apply in_split in Hin. destruct Hin as (l1 & l2 & E).
  rewrite E in HF, Hnd.
  apply (stock_rule_after_writes uid st _ l1 item l2 infos HF).
  - rewrite after_items_products. reflexivity.
  - intros item' Hin' Eq.
    rewrite map_app in Hnd. simpl in Hnd.
    apply NoDup_remove_2 in Hnd. apply Hnd.
    apply in_or_app. right. rewrite <- Eq. apply in_map. exact Hin'.
Qed.

Lemma stock_after_sale_witness :
  create_sale no_faults (Some "alice") two_line_sale shop
  = ((200, BSale (mkSale 1 24 None "alice")),
     snd (create_sale no_faults (Some "alice") two_line_sale shop)) /\
  NoDup (map product_id (request_items two_line_sale)) /\
  In (line 1 2) (request_items two_line_sale) /\
  exists uid,
    Some "alice" = Some uid /\
    stock_rule uid shop
      (snd (create_sale no_faults (Some "alice") two_line_sale shop))
      (line 1 2).
Proof.
  assert (Hnd : NoDup (map product_id (request_items two_line_sale))).
  { simpl. constructor.
    - simpl. intros [E|[]]. discriminate E.
    - constructor; [simpl; tauto|constructor]. }
  assert (Hin : In (line 1 2) (request_items two_line_sale))
    by (left; reflexivity).
  split; [reflexivity|]. split; [exact Hnd|]. split; [exact Hin|].
  exact (stock_after_sale no_faults (Some "alice") two_line_sale shop _ _
           eq_refl Hnd (line 1 2) Hin).
Defined.

(** ** Requests that stop in the first loop *)

Lemma Forall2_In_l {A B} (R : A -> B -> Prop) l l' x :
  Forall2 R l l' -> In x l -> exists y, In y l' /\ R x y.
Proof.
  induction 1 as [|x' y l l' HR HF IH]; simpl; [contradiction|].
  intros [<-|Hin].
  - exists y. auto.
  - destruct (IH Hin) as (y' & Hy & HRy). exists y'. auto.
Qed.

Lemma check_items_app uid st pre : forall rest infos total acc,
  Forall2 (item_passes uid st) pre infos ->
  check_items uid st (pre ++ rest) total acc
  = check_items uid st rest (total + expected_total uid st pre)
      (acc ++ infos).
Proof.
  induction pre as [|item pre IH]; intros rest infos total acc HF.
  - inversion HF; subst. simpl. rewrite app_nil_r.
    unfold expected_total. simpl. rewrite Z.add_0_r. reflexivity.
  - inversion HF as [|? info ? infos' Hpass HF']; subst.
    change ((item :: pre) ++ rest) with (item :: (pre ++ rest)).
    rewrite (check_items_pass _ _ _ _ _ _ _ Hpass), (IH _ _ _ _ HF').
    rewrite <- app_assoc. unfold expected_total. simpl.
    rewrite Z.add_assoc. reflexivity.
Qed.

(** A request with an item that cannot pass never leaves the first loop:
    the call answers 400 or 404 and hands the store back as it was. *)
Lemma rejected_in_first_loop f uid data st item :
  In item (request_items data) ->
  (forall info, ~ item_passes uid st item info) ->
  exists r,
    create_sale f (Some uid) data st = (r, st) /\
    (fst r = 400 \/ fst r = 404).
Proof.
  intros Hin Hnot. unfold request_items in Hin. unfold create_sale.
  destruct (items data) as [its|]; [|contradiction].
  destruct its as [|it0 rest]; [contradiction|].
  destruct (check_items uid st (it0 :: rest) 0 []) as [r|[total infos]] eqn:C.
  - exists r. split; [reflexivity|].
    apply check_items_rejects in C. exact C.
  - apply check_items_ok in C. destruct C as (new & _ & HF & _).
    destruct (Forall2_In_l _ _ _ _ HF Hin) as (info & _ & Hpass).
    destruct (Hnot info Hpass).
Qed.

(** A request whose first item that does not pass is [item] answers what
    the loop answers on [item]. *)
Lemma stops_at_item f uid data st pre item post infos r :
  items data = Some (pre ++ item :: post) ->
  Forall2 (item_passes uid st) pre infos ->
  (forall total acc, check_items uid st (item :: post) total acc = inl r) ->
  create_sale f (Some uid) data st = (r, st).
Proof.
  intros Hits HF Hstop. unfold create_sale. rewrite Hits.
  destruct (pre ++ item :: post) as [|it0 rest] eqn:E;
    [destruct pre; discriminate|].
  rewrite <- E, (check_items_app _ _ _ _ _ _ _ HF), Hstop. reflexivity.
Qed.

(** C2, as amended: a request with an item short of stock fails and
    leaves the store exactly as it was (no Sale, no SaleItem, no stock
    write); when every item before it passes the checks and its product
    reference and quantity are not zero, the answer is the
    insufficient-stock error with the product's name and its stock. *)
Theorem insufficient_stock_rejected f uid data st item p qty :
  In item (request_items data) ->
  short_of_stock uid st item p qty ->
  (exists r,
     create_sale f (Some uid) data st = (r, st) /\
     (fst r = 400 \/ fst r = 404)) /\
  (forall pre post infos,
     items data = Some (pre ++ item :: post) ->
     Forall2 (item_passes uid st) pre infos ->
     p_id p <> 0 -> qty <> 0 ->
     create_sale f (Some uid) data st = (insufficient_stock p, st)).
Proof.
  intros Hin (Href & Hqty & Hshort). split.
  - apply rejected_in_first_loop with (item := item); [exact Hin|].
    intros info Hpass.
    pose proof (item_passes_referenced _ _ _ _ Hpass) as Href'.
    destruct Hpass as (Hinfo & _ & _ & Hle).
    apply info_of_sound in Hinfo. destruct Hinfo as (_ & Hq & _).
    rewrite Href in Href'. injection Href' as ->.
    rewrite Hqty in Hq. injection Hq as ->. lia.
  - intros pre post infos Hits HF Hpid Hq.
    apply stops_at_item with (pre := pre) (item := item) (post := post)
                             (infos := infos); auto.
    intros total acc. simpl.
    unfold referenced_product, lookup_product in Href.
    destruct (product_id item) as [pid|] eqn:Ep; [|discriminate].
    rewrite Hqty.
    destruct (select_products_by_id_user pid uid st) as [|p' l] eqn:Es;
      [discriminate|].
    simpl in Href. injection Href as ->.
    assert (Hid : p_id p = pid).
    { apply (lookup_product_sound uid st pid p).
      unfold lookup_product. rewrite Es. reflexivity. }
    rewrite <- Hid.
    apply Z.eqb_neq in Hpid. apply Z.eqb_neq in Hq. rewrite Hpid, Hq.
    simpl. apply Z.ltb_lt in Hshort. rewrite Hshort. reflexivity.
Qed.

Lemma insufficient_stock_rejected_witness :
  In (line 1 100) (request_items short_sale) /\
  short_of_stock "alice" shop (line 1 100)
    (mkProduct 1 "alice" "Jabon" 10 10 "" 5) 100 /\
  create_sale no_faults (Some "alice") short_sale shop
  = ((400, BError "Stock insuficiente para Jabon. Stock disponible: 10"),
     shop).
Proof.
  assert (Hin : In (line 1 100) (request_items short_sale))
    by (right; left; reflexivity).
  assert (Hshort : short_of_stock "alice" shop (line 1 100)
                     (mkProduct 1 "alice" "Jabon" 10 10 "" 5) 100).
  { split; [reflexivity|]. split; [reflexivity|]. simpl. lia. }
  split; [exact Hin|]. split; [exact Hshort|].
  destruct (insufficient_stock_rejected no_faults "alice" short_sale shop
              (line 1 100) _ 100 Hin Hshort) as [_ Hfirst].
  apply (Hfirst [line 2 1] []
           [mkItemInfo (mkProduct 2 "alice" "Crema" 5 3 "" 5) 2 1 5]).
  - reflexivity.
  - constructor; [|constructor].
    split; [reflexivity|]. simpl. repeat split; lia.
  - simpl. lia.
  - lia.
Defined.

(** C2 as stated fails when an earlier item is rejected first: the second
    item is short of stock, yet the answer is the 404 for the first. *)
Lemma insufficient_stock_not_reported :
  In (line 1 100) (request_items unknown_then_short_sale) /\
  short_of_stock "alice" shop (line 1 100)
    (mkProduct 1 "alice" "Jabon" 10 10 "" 5) 100 /\
  fst (create_sale no_faults (Some "alice") unknown_then_short_sale shop)
  = (404, BError "Producto 99 no encontrado") /\
  fst (create_sale no_faults (Some "alice") unknown_then_short_sale shop)
  <> insufficient_stock (mkProduct 1 "alice" "Jabon" 10 10 "" 5).
Proof.
  split; [right; left; reflexivity|].
  split; [split; [reflexivity|split; [reflexivity|simpl; lia]]|].
  split; [reflexivity|]. vm_compute. discriminate.
Qed.

(** C6, as amended: a request without items, or with an empty list, is
    answered 400 'La venta debe tener al menos un item'; a request with an
    item lacking a product reference, or whose quantity is absent or zero,
    is answered 400 or 404; in both cases the store is handed back
    untouched.  When the items before the incomplete one pass the checks,
    the answer is the 400 'Cada item debe tener product_id y quantity'. *)
Theorem incomplete_requests_rejected f uid data st :
  (request_items data = [] ->
   create_sale f (Some uid) data st
   = ((400, BError "La venta debe tener al menos un item"), st)) /\
  (forall item,
     In item (request_items data) -> incomplete item = true ->
     exists r,
       create_sale f (Some uid) data st = (r, st) /\
       (fst r = 400 \/ fst r = 404)) /\
  (forall pre item post infos,
     items data = Some (pre ++ item :: post) ->
     Forall2 (item_passes uid st) pre infos ->
     incomplete item = true ->
     create_sale f (Some uid) data st
     = ((400, BError "Cada item debe tener product_id y quantity"), st)).
Proof.
  split; [|split].
  - unfold request_items, create_sale.
    destruct (items data) as [[|it0 rest]|]; [reflexivity|discriminate|
                                               reflexivity].
  - intros item Hin Hinc.
    apply rejected_in_first_loop with (item := item); [exact Hin|].
    intros info (Hinfo & Hp & Hq & _).
    apply info_of_sound in Hinfo. destruct Hinfo as (Ep & Eq & _).
    unfold incomplete in Hinc. rewrite Ep, Eq in Hinc.
    apply orb_true_iff in Hinc. destruct Hinc as [E|E];
      apply Z.eqb_eq in E; contradiction.
  - intros pre item post infos Hits HF Hinc.
    apply stops_at_item with (pre := pre) (item := item) (post := post)
                             (infos := infos); auto.
    intros total acc. simpl. unfold incomplete in Hinc.
    destruct (product_id item) as [pid|]; [|reflexivity].
    destruct (quantity item) as [qty|]; [|reflexivity].
    rewrite Hinc. reflexivity.
Qed.

Lemma incomplete_requests_rejected_witness :
  request_items (mkSaleReq (Some []) None None) = [] /\
  create_sale no_faults (Some "alice") (mkSaleReq (Some []) None None) shop
  = ((400, BError "La venta debe tener al menos un item"), shop) /\
  In (mkItemReq (Some 1) None None) (request_items missing_quantity_sale) /\
  incomplete (mkItemReq (Some 1) None None) = true /\
  create_sale no_faults (Some "alice") missing_quantity_sale shop
  = ((400, BError "Cada item debe tener product_id y quantity"), shop).
Proof.
  destruct (incomplete_requests_rejected no_faults "alice"
              (mkSaleReq (Some []) None None) shop) as (Hempty & _ & _).
  destruct (incomplete_requests_rejected no_faults "alice"
              missing_quantity_sale shop) as (_ & _ & Hfirst).
  split; [reflexivity|]. split; [apply Hempty; reflexivity|].
  split; [right; left; reflexivity|]. split; [reflexivity|].
  apply (Hfirst [line 2 1] (mkItemReq (Some 1) None None) []
           [mkItemInfo (mkProduct 2 "alice" "Crema" 5 3 "" 5) 2 1 5]).
  - reflexivity.
  - constructor; [|constructor].
    split; [reflexivity|]. simpl. repeat split; lia.
  - reflexivity.
Defined.

(** C6 as stated fails on a negative quantity: the test of line 268 lets
    it through, the sale is recorded, and the stock goes up. *)
Lemma negative_quantity_accepted :
  In (line 1 (-1)) (request_items negative_quantity_sale) /\
  quantity (line 1 (-1)) = Some (-1) /\
  ~ 0 < -1 /\
  fst (create_sale no_faults (Some "alice") negative_quantity_sale shop)
  = (200, BSale (mkSale 1 (-10) None "alice")) /\
  stock_of 1 "alice" shop = Some 10 /\
  stock_of 1 "alice"
    (snd (create_sale no_faults (Some "alice") negative_quantity_sale shop))
  = Some 11.
Proof.
  split; [left; reflexivity|]. split; [reflexivity|].
  split; [lia|]. repeat split; reflexivity.
Qed.

(** The theorems on failed writes, run on [two_line_sale] with a write
    of the second item failing. *)

Lemma two_line_sale_valid :
  Forall2 (item_passes "alice" shop) ([line 1 2] ++ second_line :: [])
          two_line_infos.
Proof.
  repeat constructor; try reflexivity; simpl; lia.
Qed.

Lemma first_served (f : Faults) :
  item_insert f 0 = Served -> stock_update f 0 = Served ->
  forall j, (j < List.length [line 1 2])%nat ->
    item_insert f j = Served /\ stock_update f j = Served.
Proof.
  intros Hi Hu j Hj. destruct j as [|j]; [auto|simpl in Hj; lia].
Qed.

Lemma raising_item_insert_keeps_header_witness :
  items two_line_sale = Some ([line 1 2] ++ second_line :: []) /\
  sale_insert second_insert_raises = Served /\
  item_insert second_insert_raises (List.length [line 1 2])
  = Raises "insert rejected" /\
  exists st',
    create_sale second_insert_raises (Some "alice") two_line_sale shop
    = (internal_error "insert rejected", st') /\
    s_id (header_of "alice" two_line_sale shop) = sale_seq shop /\
    sales st' = sales shop ++ [header_of "alice" two_line_sale shop].
Proof.
  split; [reflexivity|]. split; [reflexivity|]. split; [reflexivity|].
  exact (raising_item_insert_keeps_header second_insert_raises "alice"
           two_line_sale shop [line 1 2] [] second_line two_line_infos
           eq_refl two_line_sale_valid eq_refl
           (first_served second_insert_raises eq_refl eq_refl)
           "insert rejected" eq_refl).
Defined.

Lemma raising_stock_update_keeps_sale_witness :
  items two_line_sale = Some ([line 1 2] ++ second_line :: []) /\
  sale_insert second_update_raises = Served /\
  item_insert second_update_raises (List.length [line 1 2]) = Served /\
  stock_update second_update_raises (List.length [line 1 2])
  = Raises "update rejected" /\
  exists st' rows,
    create_sale second_update_raises (Some "alice") two_line_sale shop
    = (internal_error "update rejected", st') /\
    s_id (header_of "alice" two_line_sale shop) = sale_seq shop /\
    sales st' = sales shop ++ [header_of "alice" two_line_sale shop] /\
    sale_items st' = sale_items shop ++ rows /\
    List.length rows = S (List.length [line 1 2]) /\
    Forall (fun r => si_sale_id r = sale_seq shop) rows.
Proof.
  split; [reflexivity|]. split; [reflexivity|]. split; [reflexivity|].
  split; [reflexivity|].
  exact (raising_stock_update_keeps_sale second_update_raises "alice"
           two_line_sale shop [line 1 2] [] second_line two_line_infos
           eq_refl two_line_sale_valid eq_refl
           (first_served second_update_raises eq_refl eq_refl)
           "update rejected" eq_refl eq_refl).
Defined.




(** The two paths that do compensate, on the same request. *)
Lemma empty_item_insert_deletes_header_example :
  fst (create_sale second_insert_refused (Some "alice") two_line_sale shop)
  = (400, BError "Error creando item para Crema") /\
  sales (snd (create_sale second_insert_refused (Some "alice") two_line_sale
                shop))
  = [].
Proof.
  split; reflexivity.
Qed.

Lemma empty_stock_update_deletes_sale_example :
  fst (create_sale second_update_refused (Some "alice") two_line_sale shop)
  = (400, BError "Error actualizando stock para Crema") /\
  sales (snd (create_sale second_update_refused (Some "alice") two_line_sale
                shop))
  = [] /\
  sale_items (snd (create_sale second_update_refused (Some "alice")
                     two_line_sale shop))
  = [].
Proof.
  repeat split; reflexivity.
Qed.

(** ** The top-products report *)

Lemma dict_get_add name name' q rev d :
  dict_get name (dict_add name' q rev d)
  = if String.eqb name' name
    then Some (match dict_get name d with
               | Some t => mkTotals (t_quantity t + q) (t_revenue t + rev)
               | None => mkTotals (0 + q) (0 + rev)
               end)
    else dict_get name d.
Proof.
  unfold dict_get. induction d as [|[n t] rest IH]; simpl.
  - destruct (String.eqb name' name); reflexivity.
  - destruct (String.eqb n name') eqn:E1; simpl.
    + apply String.eqb_eq in E1. subst n.
      destruct (String.eqb name' name); reflexivity.
    + destruct (String.eqb n name) eqn:E2; simpl.
      * apply String.eqb_eq in E2. subst n.
        rewrite String.eqb_sym, E1. reflexivity.
      * exact IH.
Qed.

Lemma dict_add_keys name q rev d :
  map fst (dict_add name q rev d)
  = if existsb (String.eqb name) (map fst d) then map fst d
    else map fst d ++ [name].
Proof.
  induction d as [|[n t] rest IH]; simpl; [reflexivity|].
  rewrite (String.eqb_sym name n).
  destruct (String.eqb n name); simpl; [reflexivity|].
  rewrite IH. destruct (existsb (String.eqb name) (map fst rest)); reflexivity.
Qed.

Lemma dict_add_NoDup name q rev d :
  NoDup (map fst d) -> NoDup (map fst (dict_add name q rev d)).
Proof.
  intros H. rewrite dict_add_keys.
  destruct (existsb (String.eqb name) (map fst d)) eqn:E; [exact H|].
  apply NoDup_app; [exact H|repeat constructor; simpl; tauto|].
  intros x Hin [<-|[]].
  assert (Ht : existsb (String.eqb name) (map fst d) = true).
  { apply existsb_exists. exists name.
    split; [exact Hin|apply String.eqb_refl]. }
  rewrite Ht in E. discriminate.
Qed.

Lemma dict_get_In name t d :
  NoDup (map fst d) -> In (name, t) d -> dict_get name d = Some t.
Proof.
  unfold dict_get. induction d as [|[n t'] rest IH]; simpl; [tauto|].
  intros Hnd [E|Hin].
  - injection E as -> ->. rewrite String.eqb_refl. reflexivity.
  - inversion Hnd as [|? ? Hnot Hnd']; subst.
    destruct (String.eqb n name) eqn:E.
    + apply String.eqb_eq in E. subst n. exfalso. apply Hnot.
      apply in_map_iff. exists (name, t). auto.
    + apply IH; assumption.
Qed.

Lemma rows_of_snoc name rows r :
  rows_of name (rows ++ [r])
  = rows_of name rows
    ++ (if String.eqb (product_name r) name then [r] else []).
Proof. unfold rows_of. rewrite filter_app. reflexivity. Qed.

Lemma sum_Z_app l1 l2 : sum_Z (l1 ++ l2) = sum_Z l1 + sum_Z l2.
Proof. induction l1 as [|x l1 IH]; simpl; [reflexivity|]. rewrite IH. lia. Qed.

Lemma product_sales_snoc rows r :
  product_sales (rows ++ [r])
  = dict_add (product_name r) (r_quantity r)
             (r_quantity r * r_unit_price r) (product_sales rows).
Proof. unfold product_sales. rewrite fold_left_app. reflexivity. Qed.

Lemma product_sales_NoDup rows : NoDup (map fst (product_sales rows)).
Proof.
  induction rows as [|r rows IH] using rev_ind; [constructor|].
  rewrite product_sales_snoc. apply dict_add_NoDup. exact IH.
Qed.

(** The dict holds, for each name that occurs, the two sums over the rows
    with that name, and nothing for the other names. *)
Lemma product_sales_get name rows :
  dict_get name (product_sales rows)
  = match rows_of name rows with
    | [] => None
    | _ :: _ => Some (mkTotals (quantity_of name rows) (revenue_of name rows))
    end.
Proof.
  induction rows as [|r rows IH] using rev_ind; [reflexivity|].
  rewrite product_sales_snoc, dict_get_add, IH.
  unfold quantity_of, revenue_of. rewrite rows_of_snoc.
  destruct (String.eqb (product_name r) name) eqn:E.
  - rewrite !map_app, !sum_Z_app. simpl.
    destruct (rows_of name rows) as [|r0 l]; simpl; f_equal; f_equal; lia.
  - rewrite app_nil_r. reflexivity.
Qed.

Lemma insert_desc_perm x l : Permutation (insert_desc x l) (x :: l).
Proof.
  induction l as [|y r IH]; simpl; [apply Permutation_refl|].
  destruct (e_quantity x <? e_quantity y); [|apply Permutation_refl].
  apply perm_trans with (y :: x :: r); [|apply perm_swap].
  apply perm_skip. exact IH.
Qed.

Lemma sort_desc_perm l : Permutation (sort_desc l) l.
Proof.
  induction l as [|x l IH]; simpl; [constructor|].
  apply perm_trans with (x :: sort_desc l); [apply insert_desc_perm|].
  apply perm_skip. exact IH.
Qed.

Lemma insert_desc_sorted x l :
  Sorted more_sold l -> Sorted more_sold (insert_desc x l).
Proof.
  induction 1 as [|y r Hs IH Hhd]; simpl; [repeat constructor|].
  destruct (e_quantity x <? e_quantity y) eqn:E.
  - constructor; [exact IH|].
    destruct r as [|z r']; simpl.
    + constructor. unfold more_sold. apply Z.ltb_lt in E. lia.
    + destruct (e_quantity x <? e_quantity z).
      * constructor. inversion Hhd; assumption.
      * constructor. unfold more_sold. apply Z.ltb_lt in E. lia.
  - constructor; [constructor; assumption|].
    constructor. unfold more_sold. apply Z.ltb_ge in E. exact E.
Qed.

Lemma sort_desc_sorted l : Sorted more_sold (sort_desc l).
Proof.
  induction l as [|x l IH]; simpl; [constructor|].
  apply insert_desc_sorted. exact IH.
Qed.

Lemma firstn_sorted {A} (R : A -> A -> Prop) l : forall n,
  Sorted R l -> Sorted R (firstn n l).
Proof.
  induction l as [|a l IH]; intros n Hs; [rewrite firstn_nil; constructor|].
  destruct n as [|n]; simpl; [constructor|].
  inversion Hs as [|? ? Hs' Hhd]; subst.
  constructor; [apply IH; exact Hs'|].
  destruct l as [|b l']; [rewrite firstn_nil; constructor|].
  destruct n as [|n]; simpl; [constructor|].
  constructor. inversion Hhd; assumption.
Qed.

Lemma top_products_list_entries rows e :
  In e (top_products_list rows) <->
  exists t, In (e_name e, t) (product_sales rows) /\
            e = mkTopEntry (e_name e) (t_quantity t) (t_revenue t).
Proof.
  unfold top_products_list. split.
  - intros H. apply (Permutation_in _ (sort_desc_perm _)) in H.
    apply in_map_iff in H. destruct H as ([n t] & <- & Hin).
    exists t. simpl. auto.
  - intros (t & Hin & E).
    apply (Permutation_in _ (Permutation_sym (sort_desc_perm _))).
    apply in_map_iff. exists (e_name e, t). simpl. auto.
Qed.

Lemma rows_of_In name rows r :
  In r (rows_of name rows) <-> In r rows /\ product_name r = name.
Proof.
  unfold rows_of. rewrite filter_In, String.eqb_eq. reflexivity.
Qed.

Lemma dict_get_Some_In name t d :
  dict_get name d = Some t -> In (name, t) d.
Proof.
  unfold dict_get.
  destruct (find (fun kv => String.eqb (fst kv) name) d) as [[n t']|] eqn:E;
    simpl; [|discriminate].
  intros [= ->]. apply find_some in E. destruct E as [Hin Hn].
  simpl in Hn. apply String.eqb_eq in Hn. subst n. exact Hin.
Qed.

(** C8: [top_products] groups the fetched rows by product name, with the
    sum of the quantities and the sum of quantity times unit price per
    name; the groups are ordered by decreasing quantity and at most the
    first ten are returned; the rows (A,2,10), (B,1,5), (A,1,10) give A
    with 3 and 30, then B with 1 and 5. *)
Theorem top_products_groups_and_ranks uid rows :
  top_products (Some uid) rows
  = (200, BTop (firstn 10 (top_products_list rows))) /\
  (List.length (firstn 10 (top_products_list rows)) <= 10)%nat /\
  Sorted more_sold (top_products_list rows) /\
  Sorted more_sold (firstn 10 (top_products_list rows)) /\
  NoDup (map e_name (top_products_list rows)) /\
  (forall r, In r rows ->
     In (product_name r) (map e_name (top_products_list rows))) /\
  (forall e, In e (top_products_list rows) ->
     In (e_name e) (map product_name rows) /\
     e_quantity e = quantity_of (e_name e) rows /\
     e_revenue e = revenue_of (e_name e) rows) /\
  top_products (Some uid) example_rows
  = (200, BTop [mkTopEntry "A" 3 30; mkTopEntry "B" 1 5]).
Proof.
  split; [reflexivity|].
  split; [apply firstn_le_length|].
  split; [apply sort_desc_sorted|].
  split; [apply firstn_sorted, sort_desc_sorted|].
  split; [|split; [|split; [|reflexivity]]].
  - unfold top_products_list.
    apply (Permutation_NoDup
             (Permutation_map e_name (Permutation_sym (sort_desc_perm _)))).
    rewrite map_map. simpl. apply product_sales_NoDup.
  - intros r Hin.
    pose proof (product_sales_get (product_name r) rows) as G.
    destruct (rows_of (product_name r) rows) as [|r0 l] eqn:E.
    + assert (Hr : In r (rows_of (product_name r) rows))
        by (apply rows_of_In; auto).
      rewrite E in Hr. contradiction.
    + apply dict_get_Some_In in G.
      apply in_map_iff.
      exists (mkTopEntry (product_name r)
                (quantity_of (product_name r) rows)
                (revenue_of (product_name r) rows)).
      split; [reflexivity|]. apply top_products_list_entries.
      simpl. eexists. split; [exact G|reflexivity].
  - intros e He. apply top_products_list_entries in He.
    destruct He as (t & Hin & E).
    apply (dict_get_In _ _ _ (product_sales_NoDup rows)) in Hin.
    rewrite product_sales_get in Hin.
    destruct (rows_of (e_name e) rows) as [|r0 l] eqn:Er; [discriminate|].
    injection Hin as <-. rewrite E. simpl. split; [|auto].
    assert (Hr : In r0 (rows_of (e_name e) rows)) by (rewrite Er; left; auto).
    apply rows_of_In in Hr. destruct Hr as [Hr <-].
    apply in_map. exact Hr.
Qed.

(** ** Product creation *)

(** C10, as amended: a product request whose name is absent or empty, or
    whose price is absent, null, the number 0 or the empty string, is
    answered 400 and nothing is inserted; and a product created from a
    price sent as a number never has price 0. *)
Theorem product_needs_name_and_price ok uid data st :
  (truthy_str (pr_name data) = false \/ truthy (pr_price data) = false ->
   create_product ok (Some uid) data st
   = ((400, BError "Nombre y precio son requeridos"), st)) /\
  (pr_price data = Some (JNum 0) ->
   create_product ok (Some uid) data st
   = ((400, BError "Nombre y precio son requeridos"), st)) /\
  (forall p st' z,
     create_product ok (Some uid) data st = ((200, BProduct p), st') ->
     pr_price data = Some (JNum z) ->
     In p (products st') /\ p_price p = z /\ z <> 0).
Proof.
  assert (Hfalsy : truthy_str (pr_name data) = false \/
                   truthy (pr_price data) = false ->
                   create_product ok (Some uid) data st
                   = ((400, BError "Nombre y precio son requeridos"), st)).
  { intros H. unfold create_product.
    destruct H as [-> | ->]; [reflexivity|].
    rewrite orb_true_r. reflexivity. }
  split; [exact Hfalsy|]. split.
  - intros E. apply Hfalsy. right. rewrite E. reflexivity.
  - intros p st' z H E. unfold create_product in H. rewrite E in H.
    destruct (truthy_str (pr_name data)); [|discriminate].
    simpl in H. destruct (z =? 0) eqn:Ez; [discriminate|].
    simpl in H. destruct (pr_name data) as [name|]; [|discriminate].
    destruct (int_or (pr_stock data) 0) as [stock|]; [|discriminate].
    destruct (int_or (pr_low_stock_alert data) 5) as [alert|];
      [|discriminate].
    unfold insert_product in H. destruct ok; [|discriminate].
    injection H as <- <-. simpl. apply Z.eqb_neq in Ez.
    split; [apply in_or_app; right; left; reflexivity|auto].
Qed.

Lemma product_needs_name_and_price_witness :
  pr_price zero_price_product = Some (JNum 0) /\
  create_product true (Some "alice") zero_price_product shop
  = ((400, BError "Nombre y precio son requeridos"), shop) /\
  pr_price priced_product = Some (JNum 12) /\
  exists p,
    fst (create_product true (Some "alice") priced_product shop)
    = (200, BProduct p) /\
    p_price p = 12.
Proof.
  destruct (product_needs_name_and_price true "alice" zero_price_product shop)
    as (_ & Hzero & _).
  destruct (product_needs_name_and_price true "alice" priced_product shop)
    as (_ & _ & Hmade).
  split; [reflexivity|]. split; [apply Hzero; reflexivity|].
  split; [reflexivity|].
  destruct (Hmade (mkProduct 4 "alice" "Muestra" 12 0 "" 5)
                  (snd (create_product true (Some "alice") priced_product
                          shop)) 12 eq_refl eq_refl) as (_ & Hp & _).
  eexists. split; [reflexivity|exact Hp].
Defined.

(** C10 as stated fails on a price sent as the string "0": the string is
    not empty, so it passes the test of line 145, and [float] turns it
    into 0. *)
Lemma zero_price_product_created :
  fst (create_product true (Some "alice") free_product shop)
  = (200, BProduct (mkProduct 4 "alice" "Muestra" 0 0 "" 5)) /\
  In (mkProduct 4 "alice" "Muestra" 0 0 "" 5)
     (products (snd (create_product true (Some "alice") free_product shop))) /\
  p_price (mkProduct 4 "alice" "Muestra" 0 0 "" 5) = 0.
Proof.
  split; [reflexivity|]. split; [|reflexivity].
  vm_compute. right. right. right. left. reflexivity.
Qed.

(** ** Ownership *)

(** The stock update of line 339 filters on the identity alone.  With
    identities that are unique in the table, the identity it is given is
    that of a row of the caller, so the rows of other users come out of
    [create_sale] as they went in. *)
Lemma write_stock_spares uid ps info p :
  (forall q, In q ps -> p_id q = p_id (product info) -> p_user_id q = uid) ->
  In p ps -> p_user_id p <> uid -> In p (write_stock ps info).
Proof.
  intros Hown Hin Hne. unfold write_stock. apply in_map_iff. exists p.
  split; [|exact Hin].
  destruct (p_id p =? p_id (product info)) eqn:E; [|reflexivity].
  apply Z.eqb_eq in E. destruct (Hne (Hown p Hin E)).
Qed.

Lemma write_stock_owner uid ps info pid :
  (forall q, In q ps -> p_id q = pid -> p_user_id q = uid) ->
  forall q, In q (write_stock ps info) -> p_id q = pid -> p_user_id q = uid.
Proof.
  intros Hown q Hin. unfold write_stock in Hin. apply in_map_iff in Hin.
  destruct Hin as (q0 & <- & Hin0).
  destruct (p_id q0 =? p_id (product info)); simpl; apply Hown; exact Hin0.
Qed.

Lemma process_items_spares f sale_id uid p infos : forall i st,
  (forall info, In info infos ->
     forall q, In q (products st) -> p_id q = p_id (product info) ->
               p_user_id q = uid) ->
  In p (products st) -> p_user_id p <> uid ->
  In p (products (snd (process_items f sale_id i infos st))).
Proof.
  induction infos as [|info rest IH]; intros i st Hown Hin Hne;
    [exact Hin|].
  simpl. unfold insert_sale_item.
  destruct (item_insert f i); [|exact Hin..].
  unfold update_stock_by_id.
  destruct (stock_update f i); [|exact Hin..].
  cbn [products].
  assert (Hin' : In p (write_stock (products st) info)).
  { apply (write_stock_spares uid); auto.
    apply Hown. left. reflexivity. }
  destruct (map _ (filter _ (products st))); [exact Hin'|].
  apply IH; [|exact Hin'|exact Hne].
  intros info' Hi'. cbn [products].
  apply (write_stock_owner uid (products st) info).
  apply Hown. right. exact Hi'.
Qed.

Lemma NoDup_ids_same ps p q :
  NoDup (map p_id ps) -> In p ps -> In q ps -> p_id p = p_id q -> p = q.
Proof.
  induction ps as [|a ps IH]; simpl; [tauto|].
  intros Hnd Hp Hq E. inversion Hnd as [|? ? Hnot Hnd']; subst.
  destruct Hp as [<-|Hp]; destruct Hq as [<-|Hq]; auto.
  - exfalso. apply Hnot. rewrite E. apply in_map. exact Hq.
  - exfalso. apply Hnot. rewrite <- E. apply in_map. exact Hp.
Qed.

Lemma create_sale_spares_foreign_products f uid data st p :
  NoDup (map p_id (products st)) ->
  In p (products st) -> p_user_id p <> uid ->
  In p (products (snd (create_sale f (Some uid) data st))).
Proof.
  intros Hnd Hin Hne. unfold create_sale.
  destruct (items data) as [[|it0 rest]|]; try exact Hin.
  destruct (check_items uid st (it0 :: rest) 0 []) as [r|[total infos]] eqn:C;
    [exact Hin|].
  apply check_items_ok in C. destruct C as (new & E & HF & _).
  simpl in E. subst infos.
  unfold insert_sale. destruct (sale_insert f); [|exact Hin..].
  cbn [s_id].
  match goal with
  | |- context [process_items f ?sid 0 new ?st1] =>
    pose proof (process_items_spares f sid uid p new 0%nat st1) as H;
    destruct (process_items f sid 0 new st1) as [[r|] st2]
  end; simpl in *; apply H; auto;
  intros info Hi q Hq Eid;
  destruct (Forall2_In_r _ _ _ _ HF Hi) as (item & _ & Hpass);
  pose proof Hpass as (Hinfo & _);
  apply item_passes_product_id in Hpass; destruct Hpass as (_ & Hpin);
  apply info_of_sound in Hinfo; destruct Hinfo as (_ & _ & Hl & _);
  apply lookup_product_sound in Hl; destruct Hl as (_ & _ & Hu);
  rewrite (NoDup_ids_same _ _ _ Hnd Hq Hpin Eid); exact Hu.
Qed.

(** C7: the isolation the claim states is broken through [customer_id].
    [create_sale] stores the reference without asking whose customer it
    is, and [get_sales] embeds the customer the reference names.  Alice
    records a sale naming customer 2 and is then handed the row of that
    customer, which belongs to bob. *)
Theorem foreign_customer_disclosed :
  In (mkCustomer 2 "bob" "Berta" "berta@example.org" "555")
     (customers shop) /\
  fst (create_sale no_faults (Some "alice") foreign_customer_sale shop)
  = (200, BSale (mkSale 1 10 (Some 2) "alice")) /\
  exists view,
    get_sales (Some "alice")
      (snd (create_sale no_faults (Some "alice") foreign_customer_sale shop))
    = (200, BSales [view]) /\
    v_customers view
    = Some (mkCustomer 2 "bob" "Berta" "berta@example.org" "555").
Proof.
  split; [right; left; reflexivity|]. split; [reflexivity|].
  eexists. split; reflexivity.
Qed.

(** ** More on [create_sale]: what every outcome keeps *)

Section SaleInvariant.

Variable f : Faults.
Variable sale_id : Z.
Variable Inv : Store -> Prop.
Variable Good : ItemInfo -> Prop.

Hypothesis item_insert_keeps : forall ok pid qty price st,
  Inv st -> Inv (snd (insert_sale_item ok sale_id pid qty price st)).
Hypothesis stock_update_keeps : forall ok info st,
  Good info -> Inv st ->
  Inv (snd (update_stock_by_id ok (p_id (product info))
              (p_stock (product info) - item_quantity info) st)).
Hypothesis delete_sale_keeps : forall st,
  Inv st -> Inv (delete_sales_by_id sale_id st).
Hypothesis delete_items_keeps : forall st,
  Inv st -> Inv (delete_sale_items_by_sale_id sale_id st).

(** Whatever the four writes of the second loop keep, the loop keeps, on
    every path out of it. *)
Lemma process_items_keeps infos : forall i st,
  Forall Good infos -> Inv st ->
  Inv (snd (process_items f sale_id i infos st)).
Proof.
  induction infos as [|info rest IH]; intros i st HG HI; [exact HI|].
  inversion HG as [|? ? Hg HG']; subst. simpl.
  pose proof (item_insert_keeps (item_insert f i) (item_product_id info)
                (item_quantity info) (info_unit_price info) st HI) as H1.
  destruct (insert_sale_item (item_insert f i) sale_id
              (item_product_id info) (item_quantity info)
              (info_unit_price info) st) as [[[|row rows]|msg] st1];
    simpl in *.
  - apply delete_sale_keeps. exact H1.
  - pose proof (stock_update_keeps (stock_update f i) info st1 Hg H1) as H2.
    destruct (update_stock_by_id (stock_update f i) (p_id (product info))
                (p_stock (product info) - item_quantity info) st1)
      as [[[|q qs]|msg] st2]; simpl in *.
    + apply delete_items_keeps, delete_sale_keeps. exact H2.
    + apply IH; assumption.
    + exact H2.
  - exact H1.
Qed.

End SaleInvariant.

(** The same for the whole handler: [Q] holds of the store handed back as
    soon as it holds of the store handed in and of the store with the
    header, and the writes of the second loop keep it. *)
Lemma create_sale_keeps (Q : Store -> Prop) (Good : ItemInfo -> Prop)
    f user data st :
  Q st ->
  (forall uid row, user = Some uid -> s_id row = sale_seq st ->
     Q (with_header row st)) ->
  (forall ok pid qty price st1,
     Q st1 -> Q (snd (insert_sale_item ok (sale_seq st) pid qty price st1))) ->
  (forall ok info st1, Good info -> Q st1 ->
     Q (snd (update_stock_by_id ok (p_id (product info))
               (p_stock (product info) - item_quantity info) st1))) ->
  (forall st1, Q st1 -> Q (delete_sales_by_id (sale_seq st) st1)) ->
  (forall st1, Q st1 -> Q (delete_sale_items_by_sale_id (sale_seq st) st1)) ->
  (forall uid item info, user = Some uid ->
     item_passes uid st item info -> Good info) ->
  Q (snd (create_sale f user data st)).
Proof.
  intros HQ Hhead Hins Hupd Hd1 Hd2 Hgood. unfold create_sale.
  destruct user as [uid|]; [|exact HQ].
  destruct (items data) as [[|it0 rest]|]; try exact HQ.
  destruct (check_items uid st (it0 :: rest) 0 []) as [r|[total infos]] eqn:C;
    [exact HQ|].
  apply check_items_ok in C. destruct C as (new & E & HF & _).
  simpl in E. subst infos.
  unfold insert_sale. destruct (sale_insert f); [|exact HQ..].
  cbn [s_id].
  assert (HG : Forall Good new).
  { apply Forall_forall. intros info Hin.
    destruct (Forall2_In_r _ _ _ _ HF Hin) as (item & _ & Hpass).
    apply (Hgood uid item info eq_refl Hpass). }
  match goal with
  | |- context [process_items f ?sid 0 new ?st1] =>
    pose proof (process_items_keeps f sid Q Good Hins Hupd Hd1 Hd2 new 0%nat
                  st1 HG) as H;
    destruct (process_items f sid 0 new st1) as [[r|] st2]
  end; simpl in *; apply H;
  apply (Hhead uid _ eq_refl); reflexivity.
Qed.

(** No call of [create_sale] takes a stock below zero: a stock write is
    the stock read during validation minus a quantity that the stock check
    found covered.  This holds for every request, served or refused
    writes, one call after the other. *)
Theorem create_sale_keeps_stock_nonnegative f user data st :
  stock_nonnegative st ->
  stock_nonnegative (snd (create_sale f user data st)).
Proof.
  intros H.
  apply (create_sale_keeps stock_nonnegative
           (fun info => item_quantity info <= p_stock (product info)));
    auto.
  - intros ok pid qty price st1 H1. unfold insert_sale_item.
    destruct ok; exact H1.
  - intros ok info st1 Hg H1. unfold update_stock_by_id.
    destruct ok; [|exact H1..].
    intros p Hin. simpl in Hin. apply in_map_iff in Hin.
    destruct Hin as (q & <- & Hq).
    destruct (p_id q =? p_id (product info)); simpl; [lia|apply H1; exact Hq].
  - intros uid item info _ (_ & _ & _ & Hle). exact Hle.
Qed.

Lemma create_sale_keeps_stock_nonnegative_witness :
  stock_nonnegative shop /\
  stock_nonnegative
    (snd (create_sale second_update_refused (Some "alice") two_line_sale
            shop)).
Proof.
  assert (H : stock_nonnegative shop).
  { intros p Hin. simpl in Hin.
    destruct Hin as [<-|[<-|[<-|[]]]]; simpl; lia. }
  split; [exact H|].
  exact (create_sale_keeps_stock_nonnegative second_update_refused
           (Some "alice") two_line_sale shop H).
Defined.

(** [create_sale] writes nothing but stock into the products table, and
    nothing at all into the customers table: in every outcome the products
    are the same rows in the same order up to their stock. *)
Theorem create_sale_writes_only_stock f user data st :
  map without_stock (products (snd (create_sale f user data st)))
  = map without_stock (products st) /\
  customers (snd (create_sale f user data st)) = customers st.
Proof.
  apply (create_sale_keeps
           (fun st' => map without_stock (products st')
                       = map without_stock (products st) /\
                       customers st' = customers st)
           (fun _ => True)); auto.
  - intros ok pid qty price st1 H1. unfold insert_sale_item.
    destruct ok; exact H1.
  - intros ok info st1 _ [H1 H2]. unfold update_stock_by_id.
    destruct ok; [|auto..]. simpl. split; [|exact H2].
    rewrite <- H1, map_map. apply map_ext. intros p.
    destruct (p_id p =? p_id (product info)); reflexivity.
Qed.

(** ** More on [create_sale]: the header, the stored lines, resubmission *)

(** When the insert of the header of a valid request fails, the handler
    makes no other call to the store.  An insert answered without rows
    gets the 400 of line 310; an insert that raises gets the 500 of the
    [except] clause with the message of the exception.  In both cases the
    store handed back is the one the failed insert left, which is the
    store before the call, whatever the later writes would have met. *)
Theorem failed_header_stops_the_sale f uid data st infos :
  request_items data <> [] ->
  Forall2 (item_passes uid st) (request_items data) infos ->
  (sale_insert f = NoRows ->
   create_sale f (Some uid) data st
   = ((400, BError "Error creando la venta en la base de datos"), st)) /\
  (forall msg, sale_insert f = Raises msg ->
   create_sale f (Some uid) data st = (internal_error msg, st)) /\
  (sale_insert f <> Served ->
   snd (create_sale f (Some uid) data st)
   = snd (insert_sale (sale_insert f)
            (expected_total uid st (request_items data))
            (or_none (customer_id data)) uid st)).
Proof.
  unfold request_items, create_sale. intros Hne HF.
  destruct (items data) as [[|it0 rest]|]; try contradiction.
  rewrite (check_items_complete uid st _ infos 0 [] HF).
  unfold insert_sale. repeat split.
  - intros ->. reflexivity.
  - intros msg ->. reflexivity.
  - destruct (sale_insert f); [contradiction|reflexivity..].
Qed.

Lemma failed_header_stops_the_sale_witness :
  request_items two_line_sale <> [] /\
  sale_insert header_raises = Raises "insert rejected" /\
  create_sale header_raises (Some "alice") two_line_sale shop
  = ((500, BError "Error interno del servidor: insert rejected"), shop) /\
  (sale_insert header_raises = NoRows ->
   create_sale header_raises (Some "alice") two_line_sale shop
   = ((400, BError "Error creando la venta en la base de datos"), shop)) /\
  (forall msg, sale_insert header_raises = Raises msg ->
   create_sale header_raises (Some "alice") two_line_sale shop
   = (internal_error msg, shop)) /\
  (sale_insert header_raises <> Served ->
   snd (create_sale header_raises (Some "alice") two_line_sale shop)
   = snd (insert_sale (sale_insert header_raises)
            (expected_total "alice" shop (request_items two_line_sale))
            (or_none (customer_id two_line_sale)) "alice" shop)).
Proof.
  assert (Hne : request_items two_line_sale <> []) by discriminate.
  split; [exact Hne|]. split; [reflexivity|]. split; [reflexivity|].
  exact (failed_header_stops_the_sale header_raises "alice" two_line_sale
           shop two_line_infos Hne two_line_sale_valid).
Defined.

(** The same request with a header insert that is answered without rows. *)
Lemma failed_header_stops_the_sale_no_rows :
  create_sale header_refused (Some "alice") two_line_sale shop
  = ((400, BError "Error creando la venta en la base de datos"), shop).
Proof.
  reflexivity.
Qed.

Lemma after_items_rows sale_id infos : forall st,
  exists rows,
    sale_items (after_items sale_id infos st) = sale_items st ++ rows /\
    map line_of_row rows = map line_of_info infos /\
    Forall (fun r => si_sale_id r = sale_id) rows.
Proof.
  induction infos as [|info rest IH]; intros st.
  - exists []. simpl. rewrite app_nil_r. auto.
  - unfold after_items in *. simpl.
    destruct (IH (after_item sale_id st info)) as (rows & E & Hl & HF).
    eexists (_ :: rows). rewrite E. simpl. rewrite <- app_assoc. simpl.
    split; [reflexivity|]. split.
    + unfold line_of_row at 1, line_of_info at 1. simpl. rewrite Hl.
      reflexivity.
    + constructor; [reflexivity|exact HF].
Qed.

Lemma after_items_seq sale_id infos : forall st,
  sale_seq (after_items sale_id infos st) = sale_seq st.
Proof.
  induction infos as [|info rest IH]; intros st; [reflexivity|].
  unfold after_items in *. simpl. rewrite IH. reflexivity.
Qed.

Lemma item_passes_line uid st item info :
  item_passes uid st item info ->
  line_of_info info = request_line uid st item.
Proof.
  intros (Hinfo & _). apply info_of_sound in Hinfo.
  destruct Hinfo as (Hp & Hq & _ & Hpr).
  unfold line_of_info, request_line, requested_quantity.
  rewrite Hp, Hq, Hpr. reflexivity.
Qed.

Lemma passing_lines uid st its infos :
  Forall2 (item_passes uid st) its infos ->
  map line_of_info infos = map (request_line uid st) its.
Proof.
  induction 1 as [|item info its infos Hpass HF IH]; simpl; [reflexivity|].
  rewrite IH, (item_passes_line _ _ _ _ Hpass). reflexivity.
Qed.

Lemma filter_all {A} (g : A -> bool) l :
  Forall (fun x => g x = true) l -> filter g l = l.
Proof.
  induction 1 as [|x l Hx HF IH]; simpl; [reflexivity|].
  rewrite Hx, IH. reflexivity.
Qed.

Lemma filter_none {A} (g : A -> bool) l :
  Forall (fun x => g x = false) l -> filter g l = [].
Proof.
  induction 1 as [|x l Hx HF IH]; simpl; [reflexivity|].
  rewrite Hx, IH. reflexivity.
Qed.

(** The sale items of the new sale after a successful call, when no item
    in the store carried the identity the header was given. *)
Lemma items_of_new_sale f user data st body st' :
  create_sale f user data st = ((200, body), st') ->
  (forall r, In r (sale_items st) -> si_sale_id r <> sale_seq st) ->
  exists uid,
    user = Some uid /\
    body = BSale (header_of uid data st) /\
    sales st' = sales st ++ [header_of uid data st] /\
    map line_of_row (items_of_sale (sale_seq st) st')
    = map (request_line uid st) (request_items data).
Proof.
  intros H Hfresh. apply create_sale_success in H.
  destruct H as (uid & infos & -> & HF & -> & ->).
  exists uid. split; [reflexivity|]. split; [reflexivity|].
  split; [rewrite after_items_sales; reflexivity|].
  destruct (after_items_rows (sale_seq st) infos
              (with_header (header_of uid data st) st))
    as (rows & E & Hl & Hrows).
  unfold items_of_sale. rewrite E. simpl. rewrite filter_app.
  rewrite filter_none, filter_all; simpl.
  - rewrite Hl. apply passing_lines. exact HF.
  - eapply Forall_impl; [|exact Hrows]. simpl. intros r Hr.
    apply Z.eqb_eq. exact Hr.
  - apply Forall_forall. intros r Hr. apply Z.eqb_neq.
    apply Hfresh. exact Hr.
Qed.

(** ** A product listed more than once *)

(** C5: the stock written for an item is the stock read during validation
    minus the quantity of that item (line 336), not the current stock
    minus the quantity.  After a successful sale every item of the request
    has its sale item stored, but the stock read back for a product is its
    stock before the sale minus the quantity of the last item that names
    it: the quantities of the earlier items that name it are sold without
    being taken off. *)
Theorem stock_after_sale_counts_last_line
    f user data st body st' l1 item l2 :
  create_sale f user data st = ((200, body), st') ->
  request_items data = l1 ++ item :: l2 ->
  (forall item', In item' l2 -> product_id item' <> product_id item) ->
  exists uid rows,
    user = Some uid /\
    sale_items st' = sale_items st ++ rows /\
    map line_of_row rows = map (request_line uid st) (request_items data) /\
    stock_rule uid st st' item.
Proof.
  intros H E Hlater. apply create_sale_success in H.
  destruct H as (uid & infos & -> & HF & _ & ->).
  destruct (after_items_rows (sale_seq st) infos
              (with_header (header_of uid data st) st))
    as (rows & Erows & Hl & _).
  exists uid, rows. split; [reflexivity|]. split; [exact Erows|].
  split; [rewrite Hl; apply passing_lines; exact HF|].
  rewrite E in HF.
  apply (stock_rule_after_writes uid st _ l1 item l2 infos HF);
    [|exact Hlater].
  rewrite after_items_products. reflexivity.
Qed.

Lemma no_later_line (item : ItemReq) :
  forall item', In item' [] -> product_id item' <> product_id item.
Proof.
  intros item' [].
Qed.

Lemma stock_after_sale_counts_last_line_witness :
  create_sale no_faults (Some "alice") oversold_sale shop
  = ((200, BSale (mkSale 1 160 None "alice")),
     snd (create_sale no_faults (Some "alice") oversold_sale shop)) /\
  request_items oversold_sale = [line 1 8] ++ line 1 8 :: [] /\
  (forall item', In item' [] -> product_id item' <> product_id (line 1 8)) /\
  stock_of 1 "alice" shop = Some 10 /\
  map line_of_row
    (sale_items (snd (create_sale no_faults (Some "alice") oversold_sale
                        shop)))
  = [(1, 8, 10); (1, 8, 10)] /\
  stock_of 1 "alice"
    (snd (create_sale no_faults (Some "alice") oversold_sale shop))
  = Some 2 /\
  exists uid rows,
    Some "alice" = Some uid /\
    sale_items (snd (create_sale no_faults (Some "alice") oversold_sale shop))
    = sale_items shop ++ rows /\
    map line_of_row rows
    = map (request_line uid shop) (request_items oversold_sale) /\
    stock_rule uid shop
      (snd (create_sale no_faults (Some "alice") oversold_sale shop))
      (line 1 8).
Proof.
  split; [reflexivity|]. split; [reflexivity|].
  split; [exact (no_later_line (line 1 8))|].
  split; [reflexivity|]. split; [reflexivity|]. split; [reflexivity|].
  exact (stock_after_sale_counts_last_line no_faults (Some "alice")
           oversold_sale shop _ _ [line 1 8] (line 1 8) [] eq_refl eq_refl
           (no_later_line (line 1 8))).
Defined.

(** The same with two different quantities: seven units are sold and the
    stock goes from 10 to 6. *)
Lemma repeated_product_sale_takes_off_last_line :
  fst (create_sale no_faults (Some "alice") repeated_product_sale shop)
  = (200, BSale (mkSale 1 70 None "alice")) /\
  map line_of_row
    (sale_items (snd (create_sale no_faults (Some "alice")
                        repeated_product_sale shop)))
  = [(1, 3, 10); (1, 4, 10)] /\
  stock_of 1 "alice" shop = Some 10 /\
  stock_of 1 "alice"
    (snd (create_sale no_faults (Some "alice") repeated_product_sale shop))
  = Some 6.
Proof.
  repeat split; reflexivity.
Qed.

(** After a successful sale, [get_sales] lists the new sale first, with
    one embedded sale item per item of the request, in the order of the
    request and with its product, quantity and effective unit price. *)
Theorem recorded_sale_is_listed_first f user data st body st' :
  create_sale f user data st = ((200, body), st') ->
  (forall r, In r (sale_items st) -> si_sale_id r <> sale_seq st) ->
  exists uid sale view rest,
    user = Some uid /\
    body = BSale sale /\
    get_sales user st' = (200, BSales (view :: rest)) /\
    v_sale view = sale /\
    map (fun x => line_of_row (fst x)) (v_sale_items view)
    = map (request_line uid st) (request_items data).
Proof.
  intros H Hfresh.
  destruct (items_of_new_sale _ _ _ _ _ _ H Hfresh)
    as (uid & -> & -> & Hs & Hl).
  exists uid, (header_of uid data st).
  unfold get_sales, select_sales_embedded. rewrite Hs, filter_app. simpl.
  rewrite String.eqb_refl, rev_unit. simpl.
  eexists. eexists. split; [reflexivity|]. split; [reflexivity|].
  split; [reflexivity|]. split; [reflexivity|]. simpl.
  rewrite map_map. simpl. exact Hl.
Qed.

Lemma recorded_sale_is_listed_first_witness :
  create_sale no_faults (Some "alice") two_line_sale shop
  = ((200, BSale (mkSale 1 24 None "alice")),
     snd (create_sale no_faults (Some "alice") two_line_sale shop)) /\
  exists uid sale view rest,
    Some "alice" = Some uid /\
    BSale (mkSale 1 24 None "alice") = BSale sale /\
    get_sales (Some "alice")
      (snd (create_sale no_faults (Some "alice") two_line_sale shop))
    = (200, BSales (view :: rest)) /\
    v_sale view = sale /\
    map (fun x => line_of_row (fst x)) (v_sale_items view)
    = map (request_line uid shop) (request_items two_line_sale).
Proof.
  split; [reflexivity|].
  apply (recorded_sale_is_listed_first no_faults (Some "alice") two_line_sale
           shop); [reflexivity|].
  intros r [].
Defined.

Lemma sum_of_lines uid st its :
  sum_Z (map (fun l => snd (fst l) * snd l) (map (request_line uid st) its))
  = expected_total uid st its.
Proof.
  unfold expected_total. induction its as [|item its IH]; simpl;
    [reflexivity|].
  rewrite IH. unfold line_amount. lia.
Qed.

(** The total of a recorded sale is the sum, over the sale items stored
    for it, of quantity times unit price. *)
Theorem recorded_total_matches_stored_items f user data st body st' :
  create_sale f user data st = ((200, body), st') ->
  (forall r, In r (sale_items st) -> si_sale_id r <> sale_seq st) ->
  exists sale,
    body = BSale sale /\
    In sale (sales st') /\
    s_total sale
    = sum_Z (map (fun r => si_quantity r * si_unit_price r)
                 (items_of_sale (s_id sale) st')).
Proof.
  intros H Hfresh.
  destruct (items_of_new_sale _ _ _ _ _ _ H Hfresh)
    as (uid & -> & -> & Hs & Hl).
  exists (header_of uid data st). split; [reflexivity|].
  split; [rewrite Hs; apply in_or_app; right; left; reflexivity|].
  simpl. rewrite <- sum_of_lines, <- Hl, map_map. reflexivity.
Qed.

Lemma recorded_total_matches_stored_items_witness :
  create_sale no_faults (Some "alice") two_line_sale shop
  = ((200, BSale (mkSale 1 24 None "alice")),
     snd (create_sale no_faults (Some "alice") two_line_sale shop)) /\
  exists sale,
    BSale (mkSale 1 24 None "alice") = BSale sale /\
    In sale (sales (snd (create_sale no_faults (Some "alice") two_line_sale
                           shop))) /\
    s_total sale
    = sum_Z (map (fun r => si_quantity r * si_unit_price r)
                 (items_of_sale (s_id sale)
                    (snd (create_sale no_faults (Some "alice") two_line_sale
                            shop)))).
Proof.
  split; [reflexivity|].
  apply (recorded_total_matches_stored_items no_faults (Some "alice")
           two_line_sale shop); [reflexivity|].
  intros r [].
Defined.

(** The stock writes change the stock of the row that is read back and
    nothing else of it. *)
Lemma set_stock_same p : set_stock (p_stock p) p = p.
Proof. destruct p; reflexivity. Qed.

Lemma stock_writes_find pid uid infos : forall ps p,
  find_product pid uid ps = Some p ->
  exists v, find_product pid uid (stock_writes infos ps)
            = Some (set_stock v p).
Proof.
  induction infos as [|info rest IH]; intros ps p H.
  - exists (p_stock p). rewrite set_stock_same. exact H.
  - unfold stock_writes in *. simpl.
    assert (H1 : exists v0, find_product pid uid (write_stock ps info)
                            = Some (set_stock v0 p)).
    { rewrite find_product_write, H. simpl.
      destruct (pid =? p_id (product info)); eexists; [reflexivity|].
      rewrite set_stock_same. reflexivity. }
    destruct H1 as (v0 & H1). destruct (IH _ _ H1) as (v & Hv).
    exists v. rewrite Hv. reflexivity.
Qed.

Lemma stock_writes_find_none pid uid infos : forall ps,
  find_product pid uid ps = None ->
  find_product pid uid (stock_writes infos ps) = None.
Proof.
  induction infos as [|info rest IH]; intros ps H; [exact H|].
  unfold stock_writes in *. simpl. apply IH.
  rewrite find_product_write, H. reflexivity.
Qed.

Lemma effective_unit_price_after_writes uid st st1 infos item :
  products st1 = stock_writes infos (products st) ->
  effective_unit_price uid st1 item = effective_unit_price uid st item.
Proof.
  intros Hps. unfold effective_unit_price.
  destruct (unit_price item); [reflexivity|].
  destruct (product_id item) as [pid|]; [|reflexivity].
  rewrite !lookup_product_find, Hps.
  destruct (find_product pid uid (products st)) as [p|] eqn:E.
  - destruct (stock_writes_find pid uid infos _ _ E) as (v & ->).
    reflexivity.
  - rewrite (stock_writes_find_none pid uid infos _ E). reflexivity.
Qed.

Lemma expected_total_after_writes uid st st1 infos its :
  products st1 = stock_writes infos (products st) ->
  expected_total uid st1 its = expected_total uid st its.
Proof.
  intros Hps. unfold expected_total. f_equal. apply map_ext.
  intros item. unfold line_amount.
  rewrite (effective_unit_price_after_writes uid st st1 infos item Hps).
  reflexivity.
Qed.

(** [create_sale] is not idempotent.  Two successful calls with the same
    request record two sales, with consecutive identities and the same
    total, and (for a request that lists each product once) take the
    quantity of every item off the stock twice. *)
Theorem resubmitted_sale_is_recorded_twice f1 f2 user data st b1 st1 b2 st2 :
  create_sale f1 user data st = ((200, b1), st1) ->
  create_sale f2 user data st1 = ((200, b2), st2) ->
  exists uid s1 s2,
    user = Some uid /\
    b1 = BSale s1 /\ b2 = BSale s2 /\
    s_id s2 = s_id s1 + 1 /\
    s_total s2 = s_total s1 /\
    In s1 (sales st2) /\ In s2 (sales st2) /\
    (NoDup (map product_id (request_items data)) ->
     forall item, In item (request_items data) ->
     exists pid qty s,
       product_id item = Some pid /\
       quantity item = Some qty /\
       stock_of pid uid st = Some s /\
       stock_of pid uid st2 = Some (s - 2 * qty)).
Proof.
  intros H1 H2.
  apply create_sale_success in H1.
  destruct H1 as (uid & infos1 & -> & HF1 & -> & E1).
  apply create_sale_success in H2.
  destruct H2 as (uid' & infos2 & Eu & HF2 & -> & E2).
  injection Eu as <-.
  assert (Hps1 : products st1 = stock_writes infos1 (products st))
    by (rewrite E1, after_items_products; reflexivity).
  assert (Hps2 : products st2 = stock_writes infos2 (products st1))
    by (rewrite E2, after_items_products; reflexivity).
  exists uid, (header_of uid data st), (header_of uid data st1).
  split; [reflexivity|]. split; [reflexivity|]. split; [reflexivity|].
  split; [simpl; rewrite E1, after_items_seq; reflexivity|].
  split; [simpl; apply (expected_total_after_writes uid st st1 infos1);
          exact Hps1|].
  assert (Hs1 : sales st1 = sales st ++ [header_of uid data st])
    by (rewrite E1, after_items_sales; reflexivity).
  assert (Hs2 : sales st2 = sales st1 ++ [header_of uid data st1])
    by (rewrite E2, after_items_sales; reflexivity).
  split; [rewrite Hs2, Hs1; apply in_or_app; left; apply in_or_app; right;
          left; reflexivity|].
  split; [rewrite Hs2; apply in_or_app; right; left; reflexivity|].
  intros Hnd item Hin.
  apply in_split in Hin. destruct Hin as (l1 & l2 & E).
  rewrite E in HF1, HF2, Hnd.
  assert (Hlater : forall item', In item' l2 ->
                     product_id item' <> product_id item).
  { intros item' Hin' Eq. rewrite map_app in Hnd. simpl in Hnd.
    apply NoDup_remove_2 in Hnd. apply Hnd.
    apply in_or_app. right. rewrite <- Eq. apply in_map. exact Hin'. }
  destruct (stock_rule_after_writes uid st st1 l1 item l2 infos1 HF1 Hps1
              Hlater) as (pid & qty & s & Hp & Hq & Hs & Hs').
  destruct (stock_rule_after_writes uid st1 st2 l1 item l2 infos2 HF2 Hps2
              Hlater) as (pid' & qty' & s' & Hp' & Hq' & Hs2' & Hs2'').
  rewrite Hp in Hp'. injection Hp' as <-.
  rewrite Hq in Hq'. injection Hq' as <-.
  rewrite Hs' in Hs2'. injection Hs2' as <-.
  exists pid, qty, s. repeat split; auto.
  rewrite Hs2''. f_equal. lia.
Qed.

Lemma resubmitted_sale_is_recorded_twice_witness :
  let st1 := snd (create_sale no_faults (Some "alice") two_line_sale shop) in
  let st2 := snd (create_sale no_faults (Some "alice") two_line_sale st1) in
  create_sale no_faults (Some "alice") two_line_sale shop
  = ((200, BSale (mkSale 1 24 None "alice")), st1) /\
  create_sale no_faults (Some "alice") two_line_sale st1
  = ((200, BSale (mkSale 2 24 None "alice")), st2) /\
  stock_of 1 "alice" shop = Some 10 /\
  stock_of 1 "alice" st2 = Some 6 /\
  exists uid s1 s2,
    Some "alice" = Some uid /\
    BSale (mkSale 1 24 None "alice") = BSale s1 /\
    BSale (mkSale 2 24 None "alice") = BSale s2 /\
    s_id s2 = s_id s1 + 1 /\
    s_total s2 = s_total s1 /\
    In s1 (sales st2) /\ In s2 (sales st2) /\
    (NoDup (map product_id (request_items two_line_sale)) ->
     forall item, In item (request_items two_line_sale) ->
     exists pid qty s,
       product_id item = Some pid /\
       quantity item = Some qty /\
       stock_of pid uid shop = Some s /\
       stock_of pid uid st2 = Some (s - 2 * qty)).
Proof.
  intros st1 st2.
  split; [reflexivity|]. split; [reflexivity|].
  split; [reflexivity|]. split; [reflexivity|].
  exact (resubmitted_sale_is_recorded_twice no_faults no_faults
           (Some "alice") two_line_sale shop _ st1 _ st2 eq_refl eq_refl).
Defined.

(** ** Sale items of a sale that stopped *)




(** ** Products: listing, creation, update, deletion *)

Lemma hd_error_filter_map {A} (t : A -> bool) (g : A -> A) l :
  (forall x, t (g x) = t x) ->
  hd_error (filter t (map g l)) = option_map g (hd_error (filter t l)).
Proof.
  intros Ht. induction l as [|a l IH]; simpl; [reflexivity|].
  rewrite Ht. destruct (t a); [reflexivity|exact IH].
Qed.

Lemma listed_product uid st p :
  In p (products st) -> p_user_id p = uid ->
  exists rows,
    get_products (Some uid) st = (200, CProducts rows) /\
    In (p, p_stock p <=? p_low_stock_alert p) rows.
Proof.
  intros Hin Hu. eexists. split; [reflexivity|].
  apply in_map_iff. exists p. split; [reflexivity|].
  unfold select_products_by_user. rewrite <- in_rev.
  apply filter_In. split; [exact Hin|]. apply String.eqb_eq. exact Hu.
Qed.

(** After a successful sale that lists each product once, [get_products]
    shows the product of every item with its stock taken down by the
    item's quantity, and flags it [low_stock] exactly when the new stock
    is at or below the product's threshold. *)
Theorem low_stock_follows_sale f uid data st body st' :
  create_sale f (Some uid) data st = ((200, body), st') ->
  NoDup (map product_id (request_items data)) ->
  forall item, In item (request_items data) ->
  exists pid qty p rows,
    product_id item = Some pid /\
    quantity item = Some qty /\
    lookup_product pid uid st = Some p /\
    get_products (Some uid) st' = (200, CProducts rows) /\
    In (set_stock (p_stock p - qty) p,
        p_stock p - qty <=? p_low_stock_alert p) rows.
Proof.
  intros H Hnd item Hin.
  apply create_sale_success in H.
  destruct H as (uid' & infos & Eu & HF & _ & ->). injection Eu as <-.
  apply in_split in Hin. destruct Hin as (l1 & l2 & E).
  rewrite E in HF, Hnd.
  assert (Hlater : forall item', In item' l2 ->
                     product_id item' <> product_id item).
  { intros item' Hin' Eq. rewrite map_app in Hnd. simpl in Hnd.
    apply NoDup_remove_2 in Hnd. apply Hnd.
    apply in_or_app. right. rewrite <- Eq. apply in_map. exact Hin'. }
  match goal with
  | |- context [get_products _ ?s] => set (st' := s)
  end.
  assert (Hps : products st' = stock_writes infos (products st))
    by (unfold st'; rewrite after_items_products; reflexivity).
  destruct (stock_rule_after_writes uid st st' l1 item l2 infos HF Hps Hlater)
    as (pid & qty & s & Hp & Hq & Hs & Hs').
  unfold stock_of in Hs, Hs'.
  destruct (lookup_product pid uid st) as [p|] eqn:L; [|discriminate].
  simpl in Hs. injection Hs as <-.
  rewrite lookup_product_find in L.
  destruct (stock_writes_find pid uid infos _ _ L) as (v & Hv).
  rewrite lookup_product_find, Hps, Hv in Hs'. simpl in Hs'.
  injection Hs' as ->.
  assert (L' : lookup_product pid uid st'
               = Some (set_stock (p_stock p - qty) p))
    by (rewrite lookup_product_find, Hps; exact Hv).
  apply lookup_product_sound in L'. destruct L' as (Hin' & _ & Hu).
  destruct (listed_product uid st' _ Hin' Hu) as (rows & Hg & Hrow).
  exists pid, qty, p, rows. repeat split; auto.
Qed.

Lemma low_stock_follows_sale_witness :
  let st' := snd (create_sale no_faults (Some "alice") six_of_the_first shop) in
  create_sale no_faults (Some "alice") six_of_the_first shop
  = ((200, BSale (mkSale 1 60 None "alice")), st') /\
  NoDup (map product_id (request_items six_of_the_first)) /\
  In (line 1 6) (request_items six_of_the_first) /\
  (exists rows, get_products (Some "alice") shop = (200, CProducts rows) /\
                In (mkProduct 1 "alice" "Jabon" 10 10 "" 5, false) rows) /\
  (exists rows, get_products (Some "alice") st' = (200, CProducts rows) /\
                In (mkProduct 1 "alice" "Jabon" 10 4 "" 5, true) rows) /\
  exists pid qty p rows,
    product_id (line 1 6) = Some pid /\
    quantity (line 1 6) = Some qty /\
    lookup_product pid "alice" shop = Some p /\
    get_products (Some "alice") st' = (200, CProducts rows) /\
    In (set_stock (p_stock p - qty) p,
        p_stock p - qty <=? p_low_stock_alert p) rows.
Proof.
  intros st'.
  assert (Hnd : NoDup (map product_id (request_items six_of_the_first)))
    by (simpl; constructor; [simpl; tauto|constructor]).
  assert (Hin : In (line 1 6) (request_items six_of_the_first))
    by (left; reflexivity).
  split; [reflexivity|]. split; [exact Hnd|]. split; [exact Hin|].
  split; [eexists; split; [reflexivity|]; simpl; tauto|].
  split; [eexists; split; [reflexivity|]; simpl; tauto|].
  exact (low_stock_follows_sale no_faults "alice" six_of_the_first shop _ st'
           eq_refl Hnd (line 1 6) Hin).
Defined.

(** A product that [create_product] answers with is owned by the caller,
    carries the next identity of the store and the defaults of lines
    151-153 for the keys the request leaves out, and [get_products] then
    lists it first, in front of the list it gave before. *)
Theorem created_product_is_listed_first ok user data st p st' :
  create_product ok user data st = ((200, BProduct p), st') ->
  exists uid rows,
    user = Some uid /\
    p_id p = product_seq st /\
    p_user_id p = uid /\
    pr_name data = Some (p_name p) /\
    (pr_stock data = None -> p_stock p = 0) /\
    (pr_low_stock_alert data = None -> p_low_stock_alert p = 5) /\
    (pr_category data = None -> p_category p = "") /\
    products st' = products st ++ [p] /\
    get_products user st = (200, CProducts rows) /\
    get_products user st'
    = (200, CProducts ((p, p_stock p <=? p_low_stock_alert p) :: rows)).
Proof.
  unfold create_product. destruct user as [uid|]; [|discriminate].
  destruct (negb (truthy_str (pr_name data)) || negb (truthy (pr_price data)));
    [discriminate|].
  destruct (pr_name data) as [name|]; [|discriminate].
  destruct (pr_price data) as [price_v|]; [|discriminate].
  destruct (to_number price_v) as [price|]; [|discriminate].
  destruct (int_or (pr_stock data) 0) as [stock|] eqn:Es; [|discriminate].
  destruct (int_or (pr_low_stock_alert data) 5) as [alert|] eqn:Ea;
    [|discriminate].
  unfold insert_product. destruct ok; [|discriminate].
  intros [= <- <-]. exists uid. eexists.
  split; [reflexivity|]. split; [reflexivity|]. split; [reflexivity|].
  split; [reflexivity|]. simpl.
  split; [intros E; rewrite E in Es; simpl in Es; congruence|].
  split; [intros E; rewrite E in Ea; simpl in Ea; congruence|].
  split; [intros ->; reflexivity|].
  split; [reflexivity|]. split; [reflexivity|].
  unfold select_products_by_user. simpl. rewrite filter_app. simpl.
  rewrite String.eqb_refl, rev_unit. reflexivity.
Qed.

Lemma created_product_is_listed_first_witness :
  create_product true (Some "alice") priced_product shop
  = ((200, BProduct (mkProduct 4 "alice" "Muestra" 12 0 "" 5)),
     snd (create_product true (Some "alice") priced_product shop)) /\
  exists uid rows,
    Some "alice" = Some uid /\
    p_id (mkProduct 4 "alice" "Muestra" 12 0 "" 5) = product_seq shop /\
    p_user_id (mkProduct 4 "alice" "Muestra" 12 0 "" 5) = uid /\
    pr_name priced_product
    = Some (p_name (mkProduct 4 "alice" "Muestra" 12 0 "" 5)) /\
    (pr_stock priced_product = None ->
     p_stock (mkProduct 4 "alice" "Muestra" 12 0 "" 5) = 0) /\
    (pr_low_stock_alert priced_product = None ->
     p_low_stock_alert (mkProduct 4 "alice" "Muestra" 12 0 "" 5) = 5) /\
    (pr_category priced_product = None ->
     p_category (mkProduct 4 "alice" "Muestra" 12 0 "" 5) = "") /\
    products (snd (create_product true (Some "alice") priced_product shop))
    = products shop ++ [mkProduct 4 "alice" "Muestra" 12 0 "" 5] /\
    get_products (Some "alice") shop = (200, CProducts rows) /\
    get_products (Some "alice")
      (snd (create_product true (Some "alice") priced_product shop))
    = (200, CProducts ((mkProduct 4 "alice" "Muestra" 12 0 "" 5, true)
                         :: rows)).
Proof.
  split; [reflexivity|].
  exact (created_product_is_listed_first true (Some "alice") priced_product
           shop _ _ eq_refl).
Defined.

Lemma is_product_apply_patch pid uid u p :
  is_product pid uid (apply_patch u p) = is_product pid uid p.
Proof. reflexivity. Qed.

Lemma filter_untouched {A} (t : A -> bool) (g : A -> A) l :
  (forall x, t (g x) = t x) ->
  filter (fun x => negb (t x)) (map (fun x => if t x then g x else x) l)
  = filter (fun x => negb (t x)) l.
Proof.
  intros Ht. induction l as [|a l IH]; simpl; [reflexivity|].
  destruct (t a) eqn:E; simpl.
  - rewrite Ht, E. simpl. exact IH.
  - rewrite E. simpl. rewrite IH. reflexivity.
Qed.

Lemma filter_twice_opposite {A} (t : A -> bool) l :
  filter t (filter (fun x => negb (t x)) l) = [].
Proof.
  induction l as [|a l IH]; simpl; [reflexivity|].
  destruct (t a) eqn:E; simpl; [exact IH|]. rewrite E. exact IH.
Qed.

Lemma filter_idem_neg {A} (t : A -> bool) l :
  filter (fun x => negb (t x)) (filter (fun x => negb (t x)) l)
  = filter (fun x => negb (t x)) l.
Proof.
  induction l as [|a l IH]; simpl; [reflexivity|].
  destruct (t a) eqn:E; simpl; [exact IH|]. rewrite E. simpl.
  rewrite IH. reflexivity.
Qed.

(** [update_product] and [delete_product] write to one kind of row only:
    the caller's products with the identity of the URL.  Whatever they
    answer, all the other products are the same rows in the same order,
    and the other tables are as they were. *)
Theorem product_writes_are_scoped ok uid pid data st :
  let other := fun p => negb (is_product pid uid p) in
  let st1 := snd (update_product ok (Some uid) pid data st) in
  let st2 := snd (delete_product (Some uid) pid st) in
  filter other (products st1) = filter other (products st) /\
  customers st1 = customers st /\ sales st1 = sales st /\
  sale_items st1 = sale_items st /\
  filter other (products st2) = filter other (products st) /\
  customers st2 = customers st /\ sales st2 = sales st /\
  sale_items st2 = sale_items st.
Proof.
  simpl. unfold update_product, delete_product.
  destruct (select_products_by_id_user pid uid st) as [|p0 l];
    [repeat split; reflexivity|].
  assert (Hdel : filter (fun p => negb (is_product pid uid p))
                   (products (delete_products_by_id_user pid uid st))
                 = filter (fun p => negb (is_product pid uid p))
                     (products st))
    by (simpl; apply filter_idem_neg).
  destruct (update_data_of data) as [u|]; [|repeat split; auto].
  unfold update_products_by_id_user. destruct ok; [|repeat split; auto].
  destruct (map (apply_patch u) (filter (is_product pid uid) (products st)));
    simpl; repeat split; auto;
    apply (filter_untouched (is_product pid uid) (apply_patch u));
    intros x; apply is_product_apply_patch.
Qed.

Lemma update_data_of_fields data u :
  update_data_of data = Some u ->
  new_name u = pr_name data /\
  new_category u = pr_category data /\
  match pr_price data with
  | None => new_price u = None
  | Some v => to_number v = new_price u /\ new_price u <> None
  end /\
  match pr_stock data with
  | None => new_stock u = None
  | Some v => to_number v = new_stock u /\ new_stock u <> None
  end /\
  match pr_low_stock_alert data with
  | None => new_low_stock_alert u = None
  | Some v => to_number v = new_low_stock_alert u /\
              new_low_stock_alert u <> None
  end.
Proof.
  unfold update_data_of.
  destruct (pr_price data) as [vp|]; destruct (pr_stock data) as [vs|];
    destruct (pr_low_stock_alert data) as [va|]; simpl;
    try destruct (to_number vp) eqn:E1; try destruct (to_number vs) eqn:E2;
    try destruct (to_number va) eqn:E3; simpl;
    try discriminate; intros [= <-]; simpl;
    repeat split; try reflexivity; discriminate.
Qed.

(** What a key of the request does to a field: the coerced value when the
    key is there, the old value when it is not. *)
Lemma or_old_coerced (v : option jval) (n : option Z) (old : Z) :
  match v with
  | None => n = None
  | Some x => to_number x = n /\ n <> None
  end ->
  match v with
  | None => or_old n old = old
  | Some x => to_number x = Some (or_old n old)
  end.
Proof.
  destruct v as [x|].
  - intros [<- Hn]. destruct (to_number x); [reflexivity|contradiction].
  - intros ->. reflexivity.
Qed.

(** A product that [update_product] answers with is the caller's product
    of that identity with every key of the request written over it:
    [name] and [category] as they were sent, [price], [stock] and
    [low_stock_alert] as [float] and [int] give them, a number (for the
    price, one that a float holds exactly) being kept as it is, 0
    included.  A field whose key is absent is as it was; identity and
    owner have not moved, and the row is what the store gives back for
    that product afterwards. *)
Theorem updated_product_reads_back ok uid pid data st row st' :
  update_product ok (Some uid) pid data st = ((200, COneProduct row), st') ->
  exists p,
    lookup_product pid uid st = Some p /\
    lookup_product pid uid st' = Some row /\
    p_id row = pid /\ p_user_id row = uid /\
    p_name row = or_old (pr_name data) (p_name p) /\
    p_category row = or_old (pr_category data) (p_category p) /\
    match pr_price data with
    | None => p_price row = p_price p
    | Some v => to_number v = Some (p_price row)
    end /\
    match pr_stock data with
    | None => p_stock row = p_stock p
    | Some v => to_number v = Some (p_stock row)
    end /\
    match pr_low_stock_alert data with
    | None => p_low_stock_alert row = p_low_stock_alert p
    | Some v => to_number v = Some (p_low_stock_alert row)
    end /\
    (forall z, pr_price data = Some (JNum z) -> Z.abs z <= 2 ^ 53 ->
               p_price row = z) /\
    (forall z, pr_stock data = Some (JNum z) -> p_stock row = z) /\
    (forall z, pr_low_stock_alert data = Some (JNum z) ->
               p_low_stock_alert row = z).
Proof.
  unfold update_product.
  destruct (select_products_by_id_user pid uid st) as [|p l] eqn:Es;
    [discriminate|].
  destruct (update_data_of data) as [u|] eqn:Eu; [|discriminate].
  unfold update_products_by_id_user. destruct ok; [|discriminate].
  change (filter (is_product pid uid) (products st))
    with (select_products_by_id_user pid uid st).
  rewrite Es. simpl. intros [= <- <-].
  assert (L : lookup_product pid uid st = Some p)
    by (unfold lookup_product; rewrite Es; reflexivity).
  pose proof (lookup_product_sound uid st pid p L) as (_ & Hid & Hu).
  exists p. split; [exact L|].
  split.
  { unfold lookup_product, select_products_by_id_user. simpl.
    change (fun p1 => (p_id p1 =? pid) && String.eqb (p_user_id p1) uid)
      with (is_product pid uid).
    rewrite (hd_error_filter_map (is_product pid uid)
               (fun p1 => if is_product pid uid p1 then apply_patch u p1
                          else p1)).
    - change (filter (is_product pid uid) (products st))
        with (select_products_by_id_user pid uid st).
      rewrite Es. simpl.
      unfold is_product. rewrite Hid, Hu, Z.eqb_refl, String.eqb_refl.
      reflexivity.
    - intros x. destruct (is_product pid uid x) eqn:E; [|exact E].
      rewrite is_product_apply_patch. exact E. }
  split; [exact Hid|]. split; [exact Hu|].
  destruct (update_data_of_fields _ _ Eu) as (Hn & Hc & Hp & Hs & Ha).
  cbn [apply_patch p_name p_category p_price p_stock p_low_stock_alert].
  rewrite Hn, Hc.
  split; [reflexivity|]. split; [reflexivity|].
  pose proof (or_old_coerced _ _ (p_price p) Hp) as Hp'.
  pose proof (or_old_coerced _ _ (p_stock p) Hs) as Hs'.
  pose proof (or_old_coerced _ _ (p_low_stock_alert p) Ha) as Ha'.
  split; [exact Hp'|]. split; [exact Hs'|]. split; [exact Ha'|].
  split; [|split].
  - intros z E _. rewrite E in Hp'. simpl in Hp'. congruence.
  - intros z E. rewrite E in Hs'. simpl in Hs'. congruence.
  - intros z E. rewrite E in Ha'. simpl in Ha'. congruence.
Qed.

Lemma updated_product_reads_back_witness :
  update_product true (Some "alice") 1 full_update shop
  = ((200, COneProduct (mkProduct 1 "alice" "Jabon fino" 0 7 "bano" 2)),
     snd (update_product true (Some "alice") 1 full_update shop)) /\
  exists p,
    lookup_product 1 "alice" shop = Some p /\
    lookup_product 1 "alice"
      (snd (update_product true (Some "alice") 1 full_update shop))
    = Some (mkProduct 1 "alice" "Jabon fino" 0 7 "bano" 2) /\
    p_id (mkProduct 1 "alice" "Jabon fino" 0 7 "bano" 2) = 1 /\
    p_user_id (mkProduct 1 "alice" "Jabon fino" 0 7 "bano" 2) = "alice" /\
    p_name (mkProduct 1 "alice" "Jabon fino" 0 7 "bano" 2)
    = or_old (pr_name full_update) (p_name p) /\
    p_category (mkProduct 1 "alice" "Jabon fino" 0 7 "bano" 2)
    = or_old (pr_category full_update) (p_category p) /\
    match pr_price full_update with
    | None => p_price (mkProduct 1 "alice" "Jabon fino" 0 7 "bano" 2)
              = p_price p
    | Some v => to_number v
                = Some (p_price (mkProduct 1 "alice" "Jabon fino" 0 7
                                   "bano" 2))
    end /\
    match pr_stock full_update with
    | None => p_stock (mkProduct 1 "alice" "Jabon fino" 0 7 "bano" 2)
              = p_stock p
    | Some v => to_number v
                = Some (p_stock (mkProduct 1 "alice" "Jabon fino" 0 7
                                   "bano" 2))
    end /\
    match pr_low_stock_alert full_update with
    | None => p_low_stock_alert
                (mkProduct 1 "alice" "Jabon fino" 0 7 "bano" 2)
              = p_low_stock_alert p
    | Some v => to_number v
                = Some (p_low_stock_alert
                          (mkProduct 1 "alice" "Jabon fino" 0 7 "bano" 2))
    end /\
    (forall z, pr_price full_update = Some (JNum z) -> Z.abs z <= 2 ^ 53 ->
               p_price (mkProduct 1 "alice" "Jabon fino" 0 7 "bano" 2) = z) /\
    (forall z, pr_stock full_update = Some (JNum z) ->
               p_stock (mkProduct 1 "alice" "Jabon fino" 0 7 "bano" 2) = z) /\
    (forall z, pr_low_stock_alert full_update = Some (JNum z) ->
               p_low_stock_alert
                 (mkProduct 1 "alice" "Jabon fino" 0 7 "bano" 2) = z).
Proof.
  split; [reflexivity|].
  exact (updated_product_reads_back true "alice" 1 full_update shop _ _
           eq_refl).
Defined.

(** A request that names the price alone changes the price alone. *)
Lemma repriced_product_keeps_the_rest :
  fst (update_product true (Some "alice") 1 (reprice 0) shop)
  = (200, COneProduct (mkProduct 1 "alice" "Jabon" 0 10 "" 5)).
Proof.
  reflexivity.
Qed.

(** Once [delete_product] has answered 200, the store has no product of
    that identity for the caller: a second delete is answered 404, and so
    is a sale whose first item refers to it; both leave the store as it
    is. *)
Theorem deleted_product_is_gone uid pid st body st' :
  delete_product (Some uid) pid st = ((200, body), st') ->
  lookup_product pid uid st' = None /\
  delete_product (Some uid) pid st'
  = ((404, CError "Producto no encontrado"), st') /\
  forall f data qty price rest,
    items data = Some (mkItemReq (Some pid) (Some qty) price :: rest) ->
    pid <> 0 -> qty <> 0 ->
    create_sale f (Some uid) data st'
    = ((404, BError ("Producto " ++ str pid ++ " no encontrado")%string),
       st').
Proof.
  unfold delete_product.
  destruct (select_products_by_id_user pid uid st) as [|p l] eqn:Es;
    [discriminate|].
  intros [= _ <-].
  assert (Hnone : select_products_by_id_user pid uid
                    (delete_products_by_id_user pid uid st) = []).
  { unfold select_products_by_id_user. simpl.
    apply (filter_twice_opposite (is_product pid uid)). }
  split; [unfold lookup_product; rewrite Hnone; reflexivity|].
  split; [rewrite Hnone; reflexivity|].
  intros f data qty price rest Hits Hp Hq.
  unfold create_sale. rewrite Hits. simpl.
  apply Z.eqb_neq in Hp. apply Z.eqb_neq in Hq. rewrite Hp, Hq. simpl.
  rewrite Hnone. reflexivity.
Qed.

Lemma deleted_product_is_gone_witness :
  let st' := snd (delete_product (Some "alice") 1 shop) in
  delete_product (Some "alice") 1 shop
  = ((200, CMessage "Producto eliminado correctamente"), st') /\
  lookup_product 1 "alice" st' = None /\
  delete_product (Some "alice") 1 st'
  = ((404, CError "Producto no encontrado"), st') /\
  create_sale no_faults (Some "alice") six_of_the_first st'
  = ((404, BError "Producto 1 no encontrado"), st').
Proof.
  intros st'.
  destruct (deleted_product_is_gone "alice" 1 shop _ st' eq_refl)
    as (Hnone & Hagain & Hsale).
  split; [reflexivity|]. split; [exact Hnone|]. split; [exact Hagain|].
  apply (Hsale no_faults six_of_the_first 6 None []); [reflexivity|lia|lia].
Defined.

(** ** Customers *)

(** [create_customer] wants a name: without one (absent or empty) the
    answer is 400 and nothing is inserted.  A customer it answers with is
    owned by the caller, has the name of the request and empty strings
    for an [email] or [phone] the request leaves out, and [get_customers]
    then lists it first, in front of the list it gave before. *)
Theorem created_customer_is_listed_first ok new_id uid data st :
  (truthy_str (cr_name data) = false ->
   create_customer ok new_id (Some uid) data st
   = ((400, CError "El nombre es requerido"), st)) /\
  (forall c st',
     create_customer ok new_id (Some uid) data st
     = ((200, COneCustomer c), st') ->
     exists name rows,
       cr_name data = Some name /\
       c = mkCustomer new_id uid name (or_old (cr_email data) "")
                      (or_old (cr_phone data) "") /\
       customers st' = customers st ++ [c] /\
       get_customers (Some uid) st = (200, CCustomers rows) /\
       get_customers (Some uid) st' = (200, CCustomers (c :: rows))).
Proof.
  unfold create_customer. split.
  - intros ->. reflexivity.
  - intros c st'. destruct (truthy_str (cr_name data)); [|discriminate].
    simpl. destruct (cr_name data) as [name|]; [|discriminate].
    unfold insert_customer. destruct ok; [|discriminate].
    intros [= <- <-]. exists name. eexists.
    split; [reflexivity|]. split; [reflexivity|]. split; [reflexivity|].
    split; [reflexivity|].
    unfold get_customers, select_customers_by_user. simpl.
    rewrite filter_app. simpl. rewrite String.eqb_refl, rev_unit.
    reflexivity.
Qed.

Lemma created_customer_is_listed_first_witness :
  truthy_str (cr_name (mkCustomerReq (Some "") None None)) = false /\
  create_customer true 3 (Some "alice") (mkCustomerReq (Some "") None None)
    shop
  = ((400, CError "El nombre es requerido"), shop) /\
  create_customer true 3 (Some "alice") new_customer shop
  = ((200, COneCustomer (mkCustomer 3 "alice" "Carla" "" "600")),
     snd (create_customer true 3 (Some "alice") new_customer shop)) /\
  get_customers (Some "alice")
    (snd (create_customer true 3 (Some "alice") new_customer shop))
  = (200, CCustomers [mkCustomer 3 "alice" "Carla" "" "600";
                      mkCustomer 1 "alice" "Ana" "" ""]).
Proof.
  destruct (created_customer_is_listed_first true 3 "alice"
              (mkCustomerReq (Some "") None None) shop) as [Hname _].
  destruct (created_customer_is_listed_first true 3 "alice" new_customer shop)
    as [_ Hmade].
  split; [reflexivity|]. split; [apply Hname; reflexivity|].
  split; [reflexivity|].
  destruct (Hmade _ _ eq_refl) as (name & rows & _ & _ & _ & _ & _).
  reflexivity.
Defined.

Lemma is_customer_apply_patch cid uid u c :
  is_customer cid uid (apply_customer_patch u c) = is_customer cid uid c.
Proof. reflexivity. Qed.

(** [update_customer] and [delete_customer] write to one kind of row
    only: the caller's customers with the identity of the URL.  Whatever
    they answer, all the other customers (those of other users among
    them) are the same rows in the same order, and the other tables are
    as they were. *)
Theorem customer_writes_are_scoped ok uid cid data st :
  let other := fun c => negb (is_customer cid uid c) in
  let st1 := snd (update_customer ok (Some uid) cid data st) in
  let st2 := snd (delete_customer (Some uid) cid st) in
  filter other (customers st1) = filter other (customers st) /\
  products st1 = products st /\ sales st1 = sales st /\
  sale_items st1 = sale_items st /\
  filter other (customers st2) = filter other (customers st) /\
  products st2 = products st /\ sales st2 = sales st /\
  sale_items st2 = sale_items st.
Proof.
  simpl. unfold update_customer, delete_customer.
  destruct (select_customers_by_id_user cid uid st) as [|c0 l];
    [repeat split; reflexivity|].
  assert (Hdel : filter (fun c => negb (is_customer cid uid c))
                   (customers (delete_customers_by_id_user cid uid st))
                 = filter (fun c => negb (is_customer cid uid c))
                     (customers st))
    by (simpl; apply filter_idem_neg).
  unfold update_customers_by_id_user. destruct ok; [|repeat split; auto].
  destruct (map _ (filter (is_customer cid uid) (customers st)));
    simpl; repeat split; auto;
    apply (filter_untouched (is_customer cid uid)
             (apply_customer_patch
                (mkCustomerPatch (cr_name data) (cr_email data)
                   (cr_phone data))));
    intros x; apply is_customer_apply_patch.
Qed.

Lemma unlisted_after_delete cid uid l :
  filter (fun c => String.eqb (c_user_id c) uid)
         (filter (fun c => negb (is_customer cid uid c)) l)
  = filter (fun c => negb (c_id c =? cid))
           (filter (fun c => String.eqb (c_user_id c) uid) l).
Proof.
  unfold is_customer. induction l as [|c l IH]; simpl; [reflexivity|].
  destruct (c_id c =? cid) eqn:Ei; destruct (String.eqb (c_user_id c) uid)
    eqn:Eu; simpl; rewrite ?Eu, ?Ei; simpl; rewrite ?IH; reflexivity.
Qed.

(** Once [delete_customer] has answered 200, [get_customers] gives the
    list it gave before without the customers of that identity, and a
    second delete is answered 404. *)
Theorem deleted_customer_is_unlisted uid cid st body st' :
  delete_customer (Some uid) cid st = ((200, body), st') ->
  exists rows,
    get_customers (Some uid) st = (200, CCustomers rows) /\
    get_customers (Some uid) st'
    = (200, CCustomers (filter (fun c => negb (c_id c =? cid)) rows)) /\
    delete_customer (Some uid) cid st'
    = ((404, CError "Cliente no encontrado"), st').
Proof.
  unfold delete_customer.
  destruct (select_customers_by_id_user cid uid st) as [|c l] eqn:Es;
    [discriminate|].
  intros [= _ <-]. eexists. split; [reflexivity|]. split.
  - unfold get_customers, select_customers_by_user. simpl.
    rewrite unlisted_after_delete, filter_rev. reflexivity.
  - assert (Hnone : select_customers_by_id_user cid uid
                      (delete_customers_by_id_user cid uid st) = []).
    { unfold select_customers_by_id_user. simpl.
      apply (filter_twice_opposite (is_customer cid uid)). }
    rewrite Hnone. reflexivity.
Qed.

Lemma deleted_customer_is_unlisted_witness :
  let st' := snd (delete_customer (Some "alice") 1 shop) in
  delete_customer (Some "alice") 1 shop
  = ((200, CMessage "Cliente eliminado correctamente"), st') /\
  get_customers (Some "alice") st' = (200, CCustomers []) /\
  exists rows,
    get_customers (Some "alice") shop = (200, CCustomers rows) /\
    get_customers (Some "alice") st'
    = (200, CCustomers (filter (fun c => negb (c_id c =? 1)) rows)) /\
    delete_customer (Some "alice") 1 st'
    = ((404, CError "Cliente no encontrado"), st').
Proof.
  intros st'. split; [reflexivity|]. split; [reflexivity|].
  exact (deleted_customer_is_unlisted "alice" 1 shop _ st' eq_refl).
Defined.

(** ** Authentication *)

Lemma startswith_bearer_has_space s :
  startswith "Bearer " s = true -> has_space s = true.
Proof.
  destruct s as [|c1 [|c2 [|c3 [|c4 [|c5 [|c6 [|c7 s]]]]]]];
    cbn [startswith]; intros H; rewrite ?andb_true_iff in H;
    decompose [and] H; try discriminate.
  match goal with
  | Hx : Ascii.eqb " " c7 = true |- _ => apply Ascii.eqb_eq in Hx; subst c7
  end.
  cbn [has_space]. rewrite Ascii.eqb_refl. cbn [orb].
  rewrite !orb_true_r. reflexivity.
Qed.

Lemma remove_all_no_space t :
  has_space t = false -> remove_all "Bearer " 0 t = t.
Proof.
  induction t as [|c t IH]; intros H; [reflexivity|].
  cbn [remove_all].
  destruct (startswith "Bearer " (String c t)) eqn:E.
  - apply startswith_bearer_has_space in E. congruence.
  - simpl in H. apply orb_false_iff in H. destruct H as [_ H].
    rewrite (IH H). reflexivity.
Qed.

Lemma remove_all_bearer s :
  remove_all "Bearer " 0 ("Bearer " ++ s) = remove_all "Bearer " 0 s.
Proof. reflexivity. Qed.

Lemma remove_all_bearers n t :
  remove_all "Bearer " 0 (bearers n ++ t) = remove_all "Bearer " 0 t.
Proof.
  induction n as [|n IH]; [reflexivity|].
  change (bearers (S n) ++ t)%string
    with ("Bearer " ++ (bearers n ++ t))%string.
  rewrite remove_all_bearer. exact IH.
Qed.

(** For a header made of the prefix ["Bearer "] and a token without
    blanks, [check_auth] asks the identity service about exactly that
    token and answers with the user the service gives, or with nothing
    when the service raises or gives no user.  The prefix may be repeated:
    [replace] drops every occurrence of it, not only the first. *)
Theorem bearer_token_reaches_service get_user n t :
  has_space t = false ->
  check_auth get_user (Some (bearers (S n) ++ t)%string)
  = user_of_reply (get_user t).
Proof.
  intros H. unfold check_auth.
  assert (Hstart : startswith "Bearer " (bearers (S n) ++ t) = true)
    by reflexivity.
  rewrite Hstart, remove_all_bearers, (remove_all_no_space t H).
  destruct (get_user t); reflexivity.
Qed.

Lemma bearer_token_reaches_service_witness :
  has_space "abc.def" = false /\
  check_auth one_token_service (Some "Bearer abc.def")
  = Some (mkUser "alice" "a@example.org") /\
  check_auth one_token_service (Some "Bearer Bearer abc.def")
  = user_of_reply (one_token_service "abc.def").
Proof.
  split; [reflexivity|]. split.
  - exact (bearer_token_reaches_service one_token_service 0 "abc.def"
             eq_refl).
  - exact (bearer_token_reaches_service one_token_service 1 "abc.def"
             eq_refl).
Defined.

Lemma turned_down_no_user get_user auth_header :
  turned_down get_user auth_header ->
  authenticated get_user auth_header = None.
Proof.
  unfold authenticated, check_auth.
  intros [->|(h & -> & [E|[E|E]])]; [reflexivity| | |].
  - rewrite E. reflexivity.
  - destruct (startswith "Bearer " h); [rewrite E|]; reflexivity.
  - destruct (startswith "Bearer " h); [rewrite E|]; reflexivity.
Qed.

(** A request that [check_auth] turns down is answered 401 by every
    handler, and the handlers that write hand the store back untouched:
    nothing is read or written before the check. *)
Theorem turned_down_requests_change_nothing get_user auth_header st :
  turned_down get_user auth_header ->
  let user := authenticated get_user auth_header in
  (forall f data,
     create_sale f user data st = ((401, BError "No autorizado"), st)) /\
  (forall ok data,
     create_product ok user data st = ((401, BError "No autorizado"), st)) /\
  (forall ok pid data,
     update_product ok user pid data st
     = ((401, CError "No autorizado"), st)) /\
  (forall pid,
     delete_product user pid st = ((401, CError "No autorizado"), st)) /\
  (forall ok new_id data,
     create_customer ok new_id user data st
     = ((401, CError "No autorizado"), st)) /\
  (forall ok cid data,
     update_customer ok user cid data st
     = ((401, CError "No autorizado"), st)) /\
  (forall cid,
     delete_customer user cid st = ((401, CError "No autorizado"), st)) /\
  get_products user st = (401, CError "No autorizado") /\
  get_customers user st = (401, CError "No autorizado") /\
  get_sales user st = (401, BError "No autorizado") /\
  backup_data user st = (401, CError "No autorizado") /\
  (forall rows, top_products user rows = (401, BError "No autorizado")).
Proof.
  intros H. simpl. rewrite (turned_down_no_user _ _ H).
  repeat split; reflexivity.
Qed.

Lemma turned_down_requests_change_nothing_witness :
  turned_down one_token_service (Some "Bearer wrong") /\
  turned_down one_token_service (Some "abc.def") /\
  create_sale no_faults
    (authenticated one_token_service (Some "Bearer wrong")) two_line_sale shop
  = ((401, BError "No autorizado"), shop) /\
  delete_product (authenticated one_token_service (Some "abc.def")) 1 shop
  = ((401, CError "No autorizado"), shop).
Proof.
  assert (H1 : turned_down one_token_service (Some "Bearer wrong")).
  { right. exists "Bearer wrong". split; [reflexivity|].
    right. right. reflexivity. }
  assert (H2 : turned_down one_token_service (Some "abc.def")).
  { right. exists "abc.def". split; [reflexivity|]. left. reflexivity. }
  split; [exact H1|]. split; [exact H2|].
  destruct (turned_down_requests_change_nothing one_token_service
              (Some "Bearer wrong") shop H1) as (Hsale & _).
  destruct (turned_down_requests_change_nothing one_token_service
              (Some "abc.def") shop H2) as (_ & _ & _ & Hdel & _).
  split; [apply Hsale|apply Hdel].
Defined.

(** ** More on the top-products report *)

Lemma sum_Z_perm l l' : Permutation l l' -> sum_Z l = sum_Z l'.
Proof.
  induction 1; simpl; lia.
Qed.

Lemma dict_add_sums name q rev d :
  sum_Z (map (fun kv => t_quantity (snd kv)) (dict_add name q rev d))
  = sum_Z (map (fun kv => t_quantity (snd kv)) d) + q /\
  sum_Z (map (fun kv => t_revenue (snd kv)) (dict_add name q rev d))
  = sum_Z (map (fun kv => t_revenue (snd kv)) d) + rev.
Proof.
  induction d as [|[n t] rest [IHq IHr]]; simpl; [lia|].
  destruct (String.eqb n name); simpl; [lia|]. rewrite IHq, IHr. lia.
Qed.

Lemma product_sales_sums rows :
  sum_Z (map (fun kv => t_quantity (snd kv)) (product_sales rows))
  = sum_Z (map r_quantity rows) /\
  sum_Z (map (fun kv => t_revenue (snd kv)) (product_sales rows))
  = sum_Z (map (fun r => r_quantity r * r_unit_price r) rows).
Proof.
  induction rows as [|r rows [IHq IHr]] using rev_ind; [split; reflexivity|].
  rewrite product_sales_snoc.
  destruct (dict_add_sums (product_name r) (r_quantity r)
              (r_quantity r * r_unit_price r) (product_sales rows))
    as [-> ->].
  rewrite IHq, IHr, !map_app, !sum_Z_app. simpl. lia.
Qed.

(** Grouping loses nothing: over all the groups, the quantities add up to
    the quantity of all fetched rows, and the revenues to the sum of
    quantity times unit price of all fetched rows. *)
Theorem groups_add_up_to_rows rows :
  sum_Z (map e_quantity (top_products_list rows))
  = sum_Z (map r_quantity rows) /\
  sum_Z (map e_revenue (top_products_list rows))
  = sum_Z (map (fun r => r_quantity r * r_unit_price r) rows).
Proof.
  destruct (product_sales_sums rows) as [Hq Hr].
  unfold top_products_list. split.
  - rewrite (sum_Z_perm _ _ (Permutation_map e_quantity (sort_desc_perm _))).
    rewrite map_map. simpl. exact Hq.
  - rewrite (sum_Z_perm _ _ (Permutation_map e_revenue (sort_desc_perm _))).
    rewrite map_map. simpl. exact Hr.
Qed.

Lemma insert_desc_ties q x l :
  filter (fun e => e_quantity e =? q) (insert_desc x l)
  = filter (fun e => e_quantity e =? q) (x :: l).
Proof.
  induction l as [|y r IH]; [reflexivity|].
  cbn [insert_desc].
  destruct (e_quantity x <? e_quantity y) eqn:E; [|reflexivity].
  cbn [filter] in *. rewrite IH.
  destruct (e_quantity x =? q) eqn:Ex; [|reflexivity].
  apply Z.eqb_eq in Ex. apply Z.ltb_lt in E.
  assert (Hy : (e_quantity y =? q) = false) by (apply Z.eqb_neq; lia).
  rewrite Hy. reflexivity.
Qed.

Lemma sort_desc_ties q l :
  filter (fun e => e_quantity e =? q) (sort_desc l)
  = filter (fun e => e_quantity e =? q) l.
Proof.
  induction l as [|x l IH]; [reflexivity|].
  simpl sort_desc. rewrite insert_desc_ties. cbn [filter]. rewrite IH.
  reflexivity.
Qed.

Lemma product_sales_keys rows :
  map fst (product_sales rows)
  = rev (nodup string_dec (rev (map product_name rows))).
Proof.
  induction rows as [|r rows IH] using rev_ind; [reflexivity|].
  rewrite product_sales_snoc, dict_add_keys, IH, map_app, rev_app_distr.
  simpl.
  destruct (in_dec string_dec (product_name r) (rev (map product_name rows)))
    as [Hin|Hout].
  - assert (E : existsb (String.eqb (product_name r))
                  (rev (nodup string_dec (rev (map product_name rows))))
                = true).
    { apply existsb_exists. exists (product_name r).
      split; [|apply String.eqb_refl].
      rewrite <- in_rev. apply nodup_In. exact Hin. }
    rewrite E. reflexivity.
  - assert (E : existsb (String.eqb (product_name r))
                  (rev (nodup string_dec (rev (map product_name rows))))
                = false).
    { apply not_true_is_false. intros E. apply existsb_exists in E.
      destruct E as (x & Hx & Ex). apply String.eqb_eq in Ex. subst x.
      apply Hout. rewrite <- in_rev in Hx. apply nodup_In in Hx. exact Hx. }
    rewrite E. reflexivity.
Qed.

(** Groups with the same quantity come out in the order in which their
    names first occur in the fetched rows: the dict lists the names in
    the order of their first row, and the sort is stable. *)
Theorem ties_keep_first_seen_order rows q :
  map fst (product_sales rows)
  = rev (nodup string_dec (rev (map product_name rows))) /\
  filter (fun e => e_quantity e =? q) (top_products_list rows)
  = filter (fun e => e_quantity e =? q)
      (map (fun kv => mkTopEntry (fst kv) (t_quantity (snd kv))
                                 (t_revenue (snd kv)))
           (product_sales rows)).
Proof.
  split; [apply product_sales_keys|apply sort_desc_ties].
Qed.

Lemma group_of_row rows r :
  In r rows ->
  In (mkTopEntry (product_name r) (quantity_of (product_name r) rows)
                 (revenue_of (product_name r) rows))
     (top_products_list rows).
Proof.
  intros Hin.
  pose proof (product_sales_get (product_name r) rows) as G.
  destruct (rows_of (product_name r) rows) as [|r0 l] eqn:E.
  - assert (Hr : In r (rows_of (product_name r) rows))
      by (apply rows_of_In; auto).
    rewrite E in Hr. contradiction.
  - apply dict_get_Some_In in G. apply top_products_list_entries.
    simpl. eexists. split; [exact G|reflexivity].
Qed.

Lemma more_sold_head e l :
  Sorted more_sold (e :: l) -> Forall (more_sold e) l.
Proof.
  intros H. apply Sorted_StronglySorted in H.
  - inversion H; assumption.
  - intros a b c Hab Hbc. unfold more_sold in *. lia.
Qed.

(** The first entry of the report is a best seller: no product name of
    the fetched rows has a larger total quantity, the names cut off after
    the tenth included. *)
Theorem best_seller_comes_first uid rows e rest :
  top_products (Some uid) rows = (200, BTop (e :: rest)) ->
  forall r, In r rows -> quantity_of (product_name r) rows <= e_quantity e.
Proof.
  unfold top_products. intros [= H] r Hin.
  pose proof (sort_desc_sorted
                (map (fun kv => mkTopEntry (fst kv) (t_quantity (snd kv))
                                           (t_revenue (snd kv)))
                     (product_sales rows))) as Hs.
  pose proof (group_of_row rows r Hin) as Hg.
  unfold top_products_list in *.
  destruct (sort_desc _) as [|e0 l]; [discriminate|].
  simpl in H. injection H as <- _.
  apply more_sold_head in Hs.
  destruct Hg as [E|Hg]; [rewrite E; simpl; lia|].
  rewrite Forall_forall in Hs. apply Hs in Hg. exact Hg.
Qed.

Lemma best_seller_comes_first_witness :
  top_products (Some "alice") example_rows
  = (200, BTop [mkTopEntry "A" 3 30; mkTopEntry "B" 1 5]) /\
  In (mkReportRow 1 5 (Some "B")) example_rows /\
  quantity_of (product_name (mkReportRow 1 5 (Some "B"))) example_rows
  <= e_quantity (mkTopEntry "A" 3 30).
Proof.
  assert (Hin : In (mkReportRow 1 5 (Some "B")) example_rows)
    by (right; left; reflexivity).
  split; [reflexivity|]. split; [exact Hin|].
  exact (best_seller_comes_first "alice" example_rows _ _ eq_refl _ Hin).
Defined.

(** ** The ownership gate and the backup *)

Lemma foreign_product_not_selected uid st p :
  NoDup (map p_id (products st)) ->
  In p (products st) -> p_user_id p <> uid ->
  select_products_by_id_user (p_id p) uid st = [].
Proof.
  intros Hnd Hin Hne.
  destruct (select_products_by_id_user (p_id p) uid st) as [|q l] eqn:E;
    [reflexivity|].
  assert (L : lookup_product (p_id p) uid st = Some q)
    by (unfold lookup_product; rewrite E; reflexivity).
  apply lookup_product_sound in L. destruct L as (Hq & Hid & Hu).
  rewrite (NoDup_ids_same _ _ _ Hnd Hin Hq (eq_sym Hid)) in Hne.
  contradiction.
Qed.

Lemma foreign_customer_not_selected uid st c :
  NoDup (map c_id (customers st)) ->
  In c (customers st) -> c_user_id c <> uid ->
  select_customers_by_id_user (c_id c) uid st = [].
Proof.
  intros Hnd Hin Hne. unfold select_customers_by_id_user.
  apply filter_none. apply Forall_forall. intros c' Hin'.
  unfold is_customer.
  destruct (c_id c' =? c_id c) eqn:Ei; [|reflexivity].
  apply Z.eqb_eq in Ei. simpl. apply String.eqb_neq. intros Eu.
  assert (E : c' = c).
  { clear Hne Eu. induction (customers st) as [|a l IH]; [contradiction|].
    simpl in Hnd. inversion Hnd as [|? ? Hnot Hnd']; subst.
    destruct Hin as [<-|Hin]; destruct Hin' as [<-|Hin']; auto.
    - exfalso. apply Hnot. rewrite <- Ei. apply in_map. exact Hin'.
    - exfalso. apply Hnot. rewrite Ei. apply in_map. exact Hin. }
  subst c'. contradiction.
Qed.

(** With identities that are unique in their table, a product or a
    customer of another user does not exist for the caller: updating or
    deleting it is answered 404 and a sale whose first item refers to it
    is answered 404, and the store is handed back untouched. *)
Theorem foreign_rows_are_not_found uid st :
  (forall p, NoDup (map p_id (products st)) ->
     In p (products st) -> p_user_id p <> uid ->
     (forall ok data,
        update_product ok (Some uid) (p_id p) data st
        = ((404, CError "Producto no encontrado"), st)) /\
     delete_product (Some uid) (p_id p) st
     = ((404, CError "Producto no encontrado"), st) /\
     (forall f data qty price rest,
        items data = Some (mkItemReq (Some (p_id p)) (Some qty) price :: rest) ->
        p_id p <> 0 -> qty <> 0 ->
        create_sale f (Some uid) data st
        = ((404, BError ("Producto " ++ str (p_id p)
                           ++ " no encontrado")%string), st))) /\
  (forall c, NoDup (map c_id (customers st)) ->
     In c (customers st) -> c_user_id c <> uid ->
     (forall ok data,
        update_customer ok (Some uid) (c_id c) data st
        = ((404, CError "Cliente no encontrado"), st)) /\
     delete_customer (Some uid) (c_id c) st
     = ((404, CError "Cliente no encontrado"), st)).
Proof.
  split.
  - intros p Hnd Hin Hne.
    pose proof (foreign_product_not_selected uid st p Hnd Hin Hne) as E.
    unfold update_product, delete_product. rewrite E.
    split; [reflexivity|]. split; [reflexivity|].
    intros f data qty price rest Hits Hp Hq.
    unfold create_sale. rewrite Hits. simpl.
    apply Z.eqb_neq in Hp. apply Z.eqb_neq in Hq. rewrite Hp, Hq. simpl.
    rewrite E. reflexivity.
  - intros c Hnd Hin Hne.
    pose proof (foreign_customer_not_selected uid st c Hnd Hin Hne) as E.
    unfold update_customer, delete_customer. rewrite E.
    split; reflexivity.
Qed.

Lemma foreign_rows_are_not_found_witness :
  NoDup (map p_id (products shop)) /\
  In (mkProduct 3 "bob" "Vela" 7 4 "" 5) (products shop) /\
  NoDup (map c_id (customers shop)) /\
  In (mkCustomer 2 "bob" "Berta" "berta@example.org" "555") (customers shop) /\
  update_product true (Some "alice") 3 (reprice 1) shop
  = ((404, CError "Producto no encontrado"), shop) /\
  delete_customer (Some "alice") 2 shop
  = ((404, CError "Cliente no encontrado"), shop).
Proof.
  assert (Hp : NoDup (map p_id (products shop))).
  { simpl. repeat constructor; simpl; intuition discriminate. }
  assert (Hc : NoDup (map c_id (customers shop))).
  { simpl. repeat constructor; simpl; intuition discriminate. }
  assert (Hip : In (mkProduct 3 "bob" "Vela" 7 4 "" 5) (products shop))
    by (simpl; tauto).
  assert (Hic : In (mkCustomer 2 "bob" "Berta" "berta@example.org" "555")
                   (customers shop)) by (simpl; tauto).
  destruct (foreign_rows_are_not_found "alice" shop) as [Hprod Hcust].
  destruct (Hprod _ Hp Hip) as (Hupd & _ & _); [discriminate|].
  destruct (Hcust _ Hc Hic) as (_ & Hdel); [discriminate|].
  split; [exact Hp|]. split; [exact Hip|]. split; [exact Hc|].
  split; [exact Hic|]. split; [apply Hupd|exact Hdel].
Defined.

(** The backup holds what the listings show: its products, customers and
    sales are the rows [get_products], [get_customers] and [get_sales]
    list for the same caller, oldest first instead of newest first, and
    without flags or embedded rows. *)
Theorem backup_agrees_with_listings uid st :
  exists ps cs ss rows cust views,
    backup_data (Some uid) st = (200, CBackup ps cs ss) /\
    get_products (Some uid) st = (200, CProducts rows) /\
    get_customers (Some uid) st = (200, CCustomers cust) /\
    get_sales (Some uid) st = (200, BSales views) /\
    ps = rev (map fst rows) /\
    cs = rev cust /\
    ss = rev (map v_sale views).
Proof.
  do 6 eexists. split; [reflexivity|]. split; [reflexivity|].
  split; [reflexivity|]. split; [reflexivity|].
  unfold select_products_by_user, select_customers_by_user,
    select_sales_embedded.
  rewrite !map_map. simpl. rewrite !map_id, !rev_involutive. auto.
Qed.
